(** * ndt7-clients: a shallow embedding of the Go client and of libndt7.js

    The development follows the source files one module at a time:
    - [Sink]       : package sink, function [Writer];
    - [Ndt7Client] : package client, [Client.dial], [Download], [Upload];
    - [Cmd]        : cmd/ndt7-client, [runSubtest], [download], [upload],
                     [realmain];
    - [Libndt7]    : web/libndt7.js, the message handler set by [measure];
    - [Libndt7Client], [Libndt7Url] : web/libndt7.js, [on], [emit], the
                     handlers of the socket, [makeurl] and [setupconn];
    - [ClientRuns], [CmdRuns] : vocabulary for statements about runs.

    Go errors are modelled as strings and byte slices as lists of bytes.
    A channel is modelled by the finite sequence of values sent on it
    before it is closed, and the party at the other end of an unbuffered
    channel is taken to be there: a send is received.  Calls that leave
    the program (the network, the logger, other packages, callbacks) are
    recorded in traces, in program order.

    The definitions come first; the properties follow, after the last
    module. *)

From Stdlib Require Import List ZArith String Bool Lia QArith Sorting.Sorted.
Import ListNotations.

Local Open Scope string_scope.
Local Open Scope Z_scope.
Local Open Scope list_scope.

Definition error := string.
Definition bytes := list Byte.byte.

(* ====================================================================== *)
(** ** package sink *)
(* ====================================================================== *)

Module Sink.

(** [MeasureResult] is the envelope read from the input channel: the code
    tests [mr.Err != nil] and otherwise writes [mr.Measurement]. *)
Record MeasureResult := {
  Err : option error;
  Measurement : bytes
}.

(** websocket.TextMessage *)
Definition TextMessage : Z := 1.

(** What the goroutine started by [Writer] does, in program order. *)
Inductive event :=
| Recv (mr : MeasureResult)                         (* one item of [range input] *)
| Write (messageType : Z) (data : bytes) (r : option error)
                                                    (* conn.WriteMessage and its result *)
| Send (e : error)                                  (* output <- e *)
| Debug (msg : string)                              (* log.Debug *)
| Warn (err : error) (msg : string)                 (* log.WithError(err).Warn *)
| Close.                                            (* close(output) *)

Definition outputs (tr : list event) : list error :=
  flat_map (fun ev => match ev with Send e => [e] | _ => [] end) tr.

Definition writes (tr : list event) : list (Z * bytes) :=
  flat_map (fun ev => match ev with Write t d _ => [(t, d)] | _ => [] end) tr.

Definition received (tr : list event) : list MeasureResult :=
  flat_map (fun ev => match ev with Recv mr => [mr] | _ => [] end) tr.

(** The events a consumer of the output channel can see. *)
Definition channel_view (tr : list event) : list event :=
  filter (fun ev => match ev with Send _ | Close => true | _ => false end) tr.

Section Writer.

(** The connection is the caller's: any state, any write behaviour. *)
Variable Conn : Type.
Variable WriteMessage : Conn -> Z -> bytes -> Conn * option error.

(** The body of [for mr := range input]: returns the connection, the
    part of the input not yet received when the loop is left, and the
    events of the loop. *)
Fixpoint loop (conn : Conn) (input : list MeasureResult)
  : Conn * list MeasureResult * list event :=
  match input with
  | [] => (conn, [], [])
  | mr :: input' =>
    match Err mr with
    | Some e => (conn, input', [Recv mr; Send e])
    | None =>
      let '(conn1, err) := WriteMessage conn TextMessage (Measurement mr) in
      match err with
      | Some e =>
        (conn1, input',
         [Recv mr; Write TextMessage (Measurement mr) (Some e);
          Warn e "WriteMessage failed"; Send e])
      | None =>
        let '(conn2, rest, tr) := loop conn1 input' in
        (conn2, rest, Recv mr :: Write TextMessage (Measurement mr) None :: tr)
      end
    end
  end.

(** The deferred [for range input {}]. *)
Definition drain (input : list MeasureResult) : list event := map Recv input.

(** The goroutine of [Writer]; the deferred calls run last-registered
    first: the drain, then the log line, then [close(output)]. *)
Definition Writer (conn : Conn) (input : list MeasureResult) : Conn * list event :=
  let '(conn', rest, tr) := loop conn input in
  (conn',
   Debug "sink.Writer: start" :: tr
     ++ drain rest
     ++ [Debug "sink.Writer: stop"]
     ++ [Close]).

(** For the statements: the connection after the payloads of [pre]
    were written, and whether all those writes succeeded. *)
Fixpoint conn_after (conn : Conn) (pre : list MeasureResult) : Conn :=
  match pre with
  | [] => conn
  | mr :: pre' => conn_after (fst (WriteMessage conn TextMessage (Measurement mr))) pre'
  end.

Fixpoint writes_ok (conn : Conn) (pre : list MeasureResult) : bool :=
  match pre with
  | [] => true
  | mr :: pre' =>
    match WriteMessage conn TextMessage (Measurement mr) with
    | (conn1, None) => writes_ok conn1 pre'
    | (_, Some _) => false
    end
  end.

Definition is_payload (mr : MeasureResult) : bool :=
  match Err mr with None => true | Some _ => false end.

(** The events of a run of payloads whose writes all succeed. *)
Definition written (pre : list MeasureResult) : list event :=
  flat_map (fun mr => [Recv mr; Write TextMessage (Measurement mr) None]) pre.

End Writer.

Arguments loop {Conn} WriteMessage conn input.
Arguments Writer {Conn} WriteMessage conn input.
Arguments conn_after {Conn} WriteMessage conn pre.
Arguments writes_ok {Conn} WriteMessage conn pre.

(** A test double for the connection: its state counts the frames
    written so far, and every write from the [n]-th on fails. *)
Definition fail_from (n : nat) (count : nat) (messageType : Z) (data : bytes)
  : nat * option error :=
  if Nat.leb n count then (count, Some "write: broken pipe") else (S count, None).

Definition payload (data : bytes) : MeasureResult :=
  {| Err := None; Measurement := data |}.

Definition failure (e : error) : MeasureResult :=
  {| Err := Some e; Measurement := [] |}.

End Sink.

(* ====================================================================== *)
(** ** Programs that call their environment *)
(* ====================================================================== *)

(** The client and the command call code that is not theirs (the dialer,
    the protocol stages, the emitter).  A program is a tree of such calls;
    an environment answers each call and may change its own state.  A run
    returns the result, the final state of the environment and the calls
    made, in order. *)
Module Prog.

Section Prog.

Variable Op : Type.
Variable Resp : Op -> Type.

Inductive prog (A : Type) : Type :=
| Ret (a : A)
| Call (o : Op) (k : Resp o -> prog A).

Arguments Ret {A} a.
Arguments Call {A} o k.

Fixpoint bind {A B : Type} (p : prog A) (f : A -> prog B) : prog B :=
  match p with
  | Ret a => f a
  | Call o k => Call o (fun r => bind (k r) f)
  end.

Definition call (o : Op) : prog (Resp o) := Call o (fun r => Ret r).

Variable World : Type.
Variable handle : forall o : Op, World -> Resp o * World.

Fixpoint run {A : Type} (p : prog A) (w : World) : A * World * list Op :=
  match p with
  | Ret a => (a, w, [])
  | Call o k =>
    let '(r, w1) := handle o w in
    let '(a, w2, tr) := run (k r) w1 in
    (a, w2, o :: tr)
  end.

Definition result_of {A : Type} (p : prog A) (w : World) : A := fst (fst (run p w)).
Definition world_of {A : Type} (p : prog A) (w : World) : World := snd (fst (run p w)).
Definition trace_of {A : Type} (p : prog A) (w : World) : list Op := snd (run p w).

End Prog.

Arguments Ret {Op Resp A} a.
Arguments Call {Op Resp A} o k.
Arguments bind {Op Resp A B} p f.
Arguments call {Op Resp} o.
Arguments run {Op Resp World} handle {A} p w.
Arguments result_of {Op Resp World} handle {A} p w.
Arguments world_of {Op Resp World} handle {A} p w.
Arguments trace_of {Op Resp World} handle {A} p w.

End Prog.

Import Prog.

Declare Scope prog_scope.
Delimit Scope prog_scope with prog.
Notation "x <- p ;; q" := (bind p (fun x => q))
  (at level 61, p at next level, right associativity) : prog_scope.
Notation "p ;; q" := (bind p (fun _ => q))
  (at level 61, right associativity) : prog_scope.

(* ====================================================================== *)
(** ** package client *)
(* ====================================================================== *)

Module Ndt7Client.

(** Client is a ndt7 client. *)
Record Client := {
  Hostname : string;
  Port : string;
  Insecure : bool
}.

(** The fields of url.URL that [dial] sets; the others keep their zero
    value. *)
Record URL := {
  Scheme : string;
  Host : string;
  Path : string
}.

Record tls_Config := { InsecureSkipVerify : bool }.

(** The fields of websocket.Dialer that [dial] sets. *)
Record Dialer := {
  TLSClientConfig : option tls_Config;
  HandshakeTimeout : Z
}.

(** http.Header: a multimap from header names to values. *)
Definition Header := list (string * list string).

(** time.Second, in nanoseconds *)
Definition Second : Z := 1000000000.

(** Connections and channels are handles given out by the environment. *)
Definition Conn := nat.
Definition Chan := nat.

(** The calls [dial], [Download] and [Upload] make outside this file. *)
Inductive op :=
| Debugf (format : string) (arg : string)              (* log.Debugf *)
| Dial (dialer : Dialer) (URL : string) (header : Header)
                                                       (* the injectable [dial] variable *)
| SetReadLimit (conn : Conn) (limit : Z)               (* conn.SetReadLimit *)
| ConnClose (conn : Conn)                              (* closer.Close *)
| Warn (err : error) (message : string)                (* log.WithError(err).Warn *)
| Reader (conn : Conn)                                 (* protocol.Reader *)
| Measurer (input : Chan)                              (* protocol.Measurer *)
| Counterflow (conn : Conn) (input : Chan)             (* protocol.Counterflow *)
| GoDiscardReader (conn : Conn)                        (* go func() { for range protocol.Reader(conn) {} }() *)
| Writer (conn : Conn)                                 (* protocol.Writer *)
| ChanRecv (ch : Chan).                                (* <-ch, on a channel of errors *)

Definition Resp (o : op) : Type :=
  match o with
  | Debugf _ _ => unit
  | Dial _ _ _ => (Conn + error)%type
  | SetReadLimit _ _ => unit
  | ConnClose _ => option error
  | Warn _ _ => unit
  | Reader _ => Chan
  | Measurer _ => Chan
  | Counterflow _ _ => option error
  | GoDiscardReader _ => unit
  | Writer _ => Chan
  | ChanRecv _ => option error
  end.

(** The calls that run a stage of the protocol. *)
Definition is_stage (o : op) : bool :=
  match o with
  | Reader _ | Measurer _ | Counterflow _ _ | GoDiscardReader _ | Writer _
  | ChanRecv _ => true
  | _ => false
  end.

Definition is_dial (o : op) : bool :=
  match o with
  | Dial _ _ _ => true
  | _ => false
  end.

Fixpoint Header_append (h : Header) (key value : string) : Header :=
  match h with
  | [] => [(key, [value])]
  | (k, vs) :: h' =>
    if String.eqb k key then (k, vs ++ [value]) :: h'
    else (k, vs) :: Header_append h' key value
  end.

Section Client.

(** Functions of the Go library, left to their implementation:
    url.URL.String and textproto.CanonicalMIMEHeaderKey. *)
Variable URL_String : URL -> string.
Variable CanonicalMIMEHeaderKey : string -> string.

(** http.Header.Add *)
Definition Header_Add (h : Header) (key value : string) : Header :=
  Header_append h (CanonicalMIMEHeaderKey key) value.

Local Open Scope prog_scope.
Local Abbreviation call := (@Prog.call op Resp).
Local Abbreviation Ret := (@Prog.Ret op Resp _).

(** dial creates and configures the websocket connection *)
Definition dial (cl : Client) (urlpath : string) : prog op Resp (Conn + error) :=
  let URL := {| Scheme := "wss"; Path := urlpath;
                Host := (Hostname cl ++ ":" ++ Port cl)%string |} in
  let dialer := {| TLSClientConfig := None; HandshakeTimeout := 0 |} in
  let dialer :=
    if Insecure cl
    then {| TLSClientConfig := Some {| InsecureSkipVerify := true |};
            HandshakeTimeout := HandshakeTimeout dialer |}
    else dialer in
  call (Debugf "Connecting to: %s" (URL_String URL));;
  let headers : Header := [] in
  let headers := Header_Add headers "Sec-WebSocket-Protocol" "net.measurementlab.ndt.v7" in
  let dialer := {| TLSClientConfig := TLSClientConfig dialer;
                   HandshakeTimeout := 3 * Second |} in
  r <- call (Dial dialer (URL_String URL) headers);;
  match r with
  | inr err => Ret (inr err)
  | inl conn =>
    call (SetReadLimit conn (Z.shiftl 1 17));;
    Ret (inl conn)
  end.

(** closeandwarn will warn if closing a closer causes a failure *)
Definition closeandwarn (closer : Conn) (message : string) : prog op Resp unit :=
  err <- call (ConnClose closer);;
  match err with
  | Some e => call (Warn e message)
  | None => Ret tt
  end.

(** Download runs a ndt7 download test. *)
Definition Download (cl : Client) : prog op Resp (option error) :=
  r <- dial cl "/ndt/v7/download";;
  match r with
  | inr err => Ret (Some err)
  | inl conn =>
    frames <- call (Reader conn);;
    measurements <- call (Measurer frames);;
    res <- call (Counterflow conn measurements);;
    closeandwarn conn "Ignored error when closing connection";;
    Ret res
  end.

(** Upload runs a ndt7 upload test. *)
Definition Upload (cl : Client) : prog op Resp (option error) :=
  r <- dial cl "/ndt/v7/upload";;
  match r with
  | inr err => Ret (Some err)
  | inl conn =>
    call (GoDiscardReader conn);;
    out <- call (Writer conn);;
    res <- call (ChanRecv out);;
    closeandwarn conn "Ignored error when closing connection";;
    Ret res
  end.

(** The URL, the dialer and the headers [dial] hands to the dialer. *)
Definition dial_URL (cl : Client) (urlpath : string) : URL :=
  {| Scheme := "wss"; Path := urlpath; Host := (Hostname cl ++ ":" ++ Port cl)%string |}.

Definition dial_call (cl : Client) (urlpath : string) : op :=
  Dial {| TLSClientConfig :=
            if Insecure cl then Some {| InsecureSkipVerify := true |} else None;
          HandshakeTimeout := 3000000000 |}
       (URL_String (dial_URL cl urlpath))
       [(CanonicalMIMEHeaderKey "Sec-WebSocket-Protocol", ["net.measurementlab.ndt.v7"])].

Definition dial_log (cl : Client) (urlpath : string) : op :=
  Debugf "Connecting to: %s" (URL_String (dial_URL cl urlpath)).

(** In an environment [handle] in state [w]: what the dialer answers
    when [dial] calls it, and the state it leaves. *)
Definition dial_outcome {World : Type} (handle : forall o : op, World -> Resp o * World)
    (cl : Client) (urlpath : string) (w : World) : Conn + error :=
  fst (handle (dial_call cl urlpath) (snd (handle (dial_log cl urlpath) w))).

Definition world_after_dial {World : Type}
    (handle : forall o : op, World -> Resp o * World)
    (cl : Client) (urlpath : string) (w : World) : World :=
  snd (handle (dial_call cl urlpath) (snd (handle (dial_log cl urlpath) w))).

(** The two subtests: the method and the path it dials. *)
Definition subtests : list ((Client -> prog op Resp (option error)) * string) :=
  [(Download, "/ndt/v7/download"); (Upload, "/ndt/v7/upload")].

End Client.

(** *** A network for the client to run against *)

(** An inbound WebSocket frame. *)
Record Frame := {
  messageType : Z;
  data : bytes
}.

(** What the environment keeps for a connection: the limit set by
    SetReadLimit (none until it is set), whether Close was called, and
    the frames the peer sends before it closes. *)
Record ConnState := {
  readLimit : option Z;
  closed : bool;
  inbound : list Frame
}.

(** The state of the network: the table of connections, indexed by
    handle, and the number of channels handed out. *)
Record Net := {
  conns : list ConnState;
  chans : nat
}.

(** The behaviour of the peer and of the protocol stages in one run. *)
Record Env := {
  dial_error : string -> option error;      (* by URL: the dial fails with this error *)
  peer_frames : list Frame;                 (* what the peer sends on a new connection *)
  counterflow_result : option error;
  writer_result : option error;
  close_result : option error
}.

Definition set_limit (limit : Z) (c : ConnState) : ConnState :=
  {| readLimit := Some limit; closed := closed c; inbound := inbound c |}.

Definition set_closed (c : ConnState) : ConnState :=
  {| readLimit := readLimit c; closed := true; inbound := inbound c |}.

Fixpoint update (cs : list ConnState) (i : nat) (f : ConnState -> ConnState)
  : list ConnState :=
  match cs, i with
  | [], _ => []
  | c :: cs', O => f c :: cs'
  | c :: cs', S i' => c :: update cs' i' f
  end.

Definition new_chan (n : Net) : Chan * Net :=
  (chans n, {| conns := conns n; chans := S (chans n) |}).

Definition net_handle (env : Env) (o : op) : Net -> Resp o * Net :=
  match o as o' return Net -> Resp o' * Net with
  | Debugf _ _ => fun n => (tt, n)
  | Dial _ URL _ => fun n =>
    match dial_error env URL with
    | Some e => (inr e, n)
    | None =>
      (inl (List.length (conns n)),
       {| conns := conns n ++ [{| readLimit := None; closed := false;
                                 inbound := peer_frames env |}];
          chans := chans n |})
    end
  | SetReadLimit conn limit => fun n =>
    (tt, {| conns := update (conns n) conn (set_limit limit); chans := chans n |})
  | ConnClose conn => fun n =>
    (close_result env,
     {| conns := update (conns n) conn set_closed; chans := chans n |})
  | Warn _ _ => fun n => (tt, n)
  | Reader _ => new_chan
  | Measurer _ => new_chan
  | Counterflow _ _ => fun n => (counterflow_result env, n)
  | GoDiscardReader _ => fun n => (tt, n)
  | Writer _ => new_chan
  | ChanRecv _ => fun n => (writer_result env, n)
  end.

Definition empty_net : Net := {| conns := []; chans := 0 |}.

Definition conn_state (n : Net) (conn : Conn) : option ConnState :=
  nth_error (conns n) conn.

(** Modelled from the spec: the Frame Reader (protocol.Reader and the
    read path of the connection under it) is not among the sources.  Per
    the spec it yields one envelope per inbound text frame, ends normally
    when the peer closes, and ends with a single error envelope on a read
    failure; a frame larger than the maximum inbound size is such a
    failure, and nothing of it is decoded. *)
Fixpoint FrameReader (limit : option Z) (frames : list Frame)
  : list Sink.MeasureResult :=
  match frames with
  | [] => []
  | f :: frames' =>
    let too_large :=
      match limit with
      | Some l => l <? Z.of_nat (List.length (data f))
      | None => false
      end in
    if too_large then [Sink.failure "websocket: read limit exceeded"]
    else if messageType f =? Sink.TextMessage
         then Sink.payload (data f) :: FrameReader limit frames'
         else FrameReader limit frames'
  end.

Definition text_payloads (frames : list Frame) : list Sink.MeasureResult :=
  map (fun f => Sink.payload (data f))
      (filter (fun f => messageType f =? Sink.TextMessage) frames).

Definition frame_size (f : Frame) : Z := Z.of_nat (List.length (data f)).

(** The library functions, for examples: url.URL.String on the three
    fields that are set, and the canonical form of the one key used. *)
Definition simple_URL_String (u : URL) : string :=
  (Scheme u ++ "://" ++ Host u ++ Path u)%string.

Definition simple_canonical (key : string) : string :=
  if String.eqb key "Sec-WebSocket-Protocol" then "Sec-Websocket-Protocol" else key.

(** An environment where nothing fails and one where every dial does. *)
Definition env_ok : Env :=
  {| dial_error := fun _ => None;
     peer_frames := [];
     counterflow_result := None;
     writer_result := None;
     close_result := None |}.

Definition env_unreachable : Env :=
  {| dial_error := fun _ => Some "dial tcp: connection refused";
     peer_frames := [];
     counterflow_result := None;
     writer_result := None;
     close_result := None |}.

Definition localhost : Client :=
  {| Hostname := "localhost"; Port := "443"; Insecure := true |}.

End Ndt7Client.

(* ====================================================================== *)
(** ** cmd/ndt7-client *)
(* ====================================================================== *)

Module Cmd.

(** The two implementations of the emitter interface. *)
Inductive emitter := interactive | batch.

(** context.WithTimeout(context.Background(), timeout) *)
Record Context := { timeout : Z }.

(** ndt7.Client, as far as this program looks into it. *)
Record Client := {
  ctx : Context;
  FQDN : string
}.

(** ndt7.NewClient *)
Definition NewClient (ctx : Context) : Client := {| ctx := ctx; FQDN := "" |}.

(** How a call ends: it returns, or it panics with a value
    ([panic(nil)] is [Panic None]). *)
Inductive result (A : Type) :=
| Normal (a : A)
| Panic (v : option string).

Arguments Normal {A} a.
Arguments Panic {A} v.

(** time.Second, in nanoseconds, and int64 arithmetic. *)
Definition Second : Z := 1000000000.
Definition wrap64 (z : Z) : Z := (z + 2 ^ 63) mod 2 ^ 64 - 2 ^ 63.

Section Cmd.

(** spec.Measurement *)
Variable Measurement : Type.

(** The calls into the emitter and into the ndt7 client library, and
    the cancel function of the context. *)
Inductive op :=
| onStarting (e : emitter) (subtest : string)
| onError (e : emitter) (subtest : string) (err : error)
| onConnected (e : emitter) (subtest : string) (fqdn : string)
| onDownloadEvent (e : emitter) (m : Measurement)
| onUploadEvent (e : emitter) (m : Measurement)
| onComplete (e : emitter) (subtest : string)
| StartDownload (client : Client)
| StartUpload (client : Client)
| cancel.

(** A start function returns the channel (here: what is sent on it
    before it is closed) and an error; any callback may panic. *)
Definition Resp (o : op) : Type :=
  match o with
  | StartDownload _ | StartUpload _ => result (list Measurement * option error)
  | cancel => unit
  | _ => result unit
  end.

Local Open Scope prog_scope.
Local Abbreviation prog := (Prog.prog op Resp).
Local Abbreviation call := (@Prog.call op Resp).
Local Abbreviation Ret := (@Prog.Ret op Resp _).

(** The body of a function with the named result [code]: it reads and
    writes [code], and either runs to its end or panics. *)
Definition body (A : Type) : Type := Z -> prog (result A * Z).

Definition unit_body {A : Type} (a : A) : body A :=
  fun code => Ret (Normal a, code).

Definition bind_body {A B : Type} (m : body A) (f : A -> body B) : body B :=
  fun code =>
    x <- m code;;
    match x with
    | (Normal a, code') => f a code'
    | (Panic v, code') => Ret (Panic v, code')
    end.

Definition lift {A : Type} (p : prog (result A)) : body A :=
  fun code => r <- p;; Ret (r, code).

Definition set_code (c : Z) : body unit :=
  fun _ => Ret (Normal tt, c).

Fixpoint for_range (ch : list Measurement) (f : Measurement -> body unit) : body unit :=
  match ch with
  | [] => unit_body tt
  | ev :: ch' => bind_body (f ev) (fun _ => for_range ch' f)
  end.

Definition runSubtest (client : Client) (emitter : emitter) (subtest : string)
    (start : prog (result (list Measurement * option error)))
    (emitEvent : Measurement -> prog (result unit)) : prog Z :=
  x <- (bind_body (set_code 0) (fun _ =>
        bind_body (lift (call (onStarting emitter subtest))) (fun _ =>
        bind_body (lift start) (fun '(ch, err) =>
        match err with
        | Some e =>
          bind_body (lift (call (onError emitter subtest e))) (fun _ =>
          set_code 2)
        | None =>
          bind_body (lift (call (onConnected emitter subtest (FQDN client)))) (fun _ =>
          bind_body (for_range ch (fun ev => lift (emitEvent ev))) (fun _ =>
          lift (call (onComplete emitter subtest))))
        end)))) 0;;
  (* the deferred function: if err := recover(); err != nil { code = 1 } *)
  match x with
  | (Panic (Some _), _) => Ret 1
  | (_, code) => Ret code
  end.

Definition download (client : Client) (emitter : emitter) : prog Z :=
  runSubtest client emitter "download" (call (StartDownload client))
    (fun m => call (onDownloadEvent emitter m)).

Definition upload (client : Client) (emitter : emitter) : prog Z :=
  runSubtest client emitter "upload" (call (StartUpload client))
    (fun m => call (onUploadEvent emitter m)).

Definition realmain (timeoutSec : Z) (hostname : string) (batchmode : bool) : prog Z :=
  let timeout := wrap64 (timeoutSec * Second) in
  let ctx := {| timeout := timeout |} in
  let client := NewClient ctx in
  let client := {| ctx := Cmd.ctx client; FQDN := hostname |} in
  let emitter := interactive in
  let emitter := if batchmode then batch else emitter in
  d <- download client emitter;;
  u <- upload client emitter;;
  call cancel;;                                      (* defer cancel() *)
  Ret (d + u).

(** The client and the emitter [realmain] sets up. *)
Definition main_client (timeoutSec : Z) (hostname : string) : Client :=
  {| ctx := {| timeout := wrap64 (timeoutSec * Second) |}; FQDN := hostname |}.

Definition main_emitter (batchmode : bool) : emitter :=
  if batchmode then batch else interactive.

(** A body leaves [code] as it found it, or sets it to 2. *)
Definition code_kept_or_2 {World : Type}
    (handle : forall o : op, World -> Resp o * World)
    {A : Type} (m : body A) : Prop :=
  forall (code : Z) (w : World),
    snd (result_of handle (m code) w) = code \/
    snd (result_of handle (m code) w) = 2.

(** An environment without state: every call is answered by [answer]. *)
Definition script (answer : forall o : op, Resp o) (o : op) (w : unit)
  : Resp o * unit := (answer o, w).

End Cmd.

Arguments onStarting {Measurement} e subtest.
Arguments onError {Measurement} e subtest err.
Arguments onConnected {Measurement} e subtest fqdn.
Arguments onComplete {Measurement} e subtest.
Arguments StartDownload {Measurement} client.
Arguments StartUpload {Measurement} client.
Arguments cancel {Measurement}.

(** Two scripts over measurements that are numbers: the download cannot
    start; the handler of download events panics on the first event. *)
Definition download_fails (o : op nat) : Resp nat o :=
  match o as o' return Resp nat o' with
  | StartDownload _ => Normal ([], Some "dial tcp: connection refused")
  | StartUpload _ => Normal ([1%nat; 2%nat], None)
  | cancel => tt
  | _ => Normal tt
  end.

Definition download_panics (o : op nat) : Resp nat o :=
  match o as o' return Resp nat o' with
  | StartDownload _ => Normal ([1%nat; 2%nat], None)
  | StartUpload _ => Normal ([3%nat], None)
  | onDownloadEvent _ _ _ => Panic (Some "runtime error: index out of range")
  | cancel => tt
  | _ => Normal tt
  end.

End Cmd.

(* ====================================================================== *)
(** ** web/libndt7.js *)
(* ====================================================================== *)

Module Libndt7.

(** JavaScript values, as far as the library builds or passes them on.
    Numbers are kept exact; an object is the list of its own properties
    in insertion order. *)
#[local] Unset Elimination Schemes.
Inductive JSValue :=
| JNull
| JBool (b : bool)
| JNumber (q : Q)
| JString (s : string)
| JArray (items : list JSValue)
| JObject (props : list (string * JSValue)).
#[local] Set Elimination Schemes.

Fixpoint lookup (props : list (string * JSValue)) (key : string) : option JSValue :=
  match props with
  | [] => None
  | (k, v) :: props' => if String.eqb k key then Some v else lookup props' key
  end.

(** [o[key]] for an own property of an object. *)
Definition get (o : JSValue) (key : string) : option JSValue :=
  match o with
  | JObject props => lookup props key
  | _ => None
  end.

(** The entries of the [events] table that [measure] uses. *)
Definition events_serverMeasurement : string := "ndt7.measurement.server".
Definition events_clientMeasurement : string := "ndt7.measurement.client".

(** [event.data]: a Blob of some size, or a string. *)
Inductive Data :=
| Blob (size : N)
| Text (s : string).

(** A message as the handler meets it: its data, and what
    [new Date().getTime()] returns while it is handled. *)
Record Message := {
  data : Data;
  clock : Z
}.

(** A call [emit(key, value)], with the clock reading of the handler
    call that made it. *)
Record Emission := {
  at_time : Z;
  key : string;
  value : JSValue
}.

(** The variables [measure] closes over. *)
Record State := {
  count : Z;
  t0 : Z;
  tlast : Z
}.

Section Measure.

(** JSON.parse; [None] when it throws. *)
Variable JSON_parse : string -> option JSValue.

(** The object literal passed to [emit] for a client measurement, with
    the values of [count], [t0] and [t1] it is built from. *)
Definition clientMeasurement (count t0 t1 : Z) : JSValue :=
  JObject [("elapsed", JNumber ((t1 - t0) # 1000));
           ("app_info", JObject [("num_bytes", JNumber (inject_Z count))])].

(** The second half of the handler, from [let t1 = new Date().getTime()]. *)
Definition report (st : State) (t1 : Z) : State * list Emission :=
  let every := 250 in
  if every <? t1 - tlast st
  then ({| count := count st; t0 := t0 st; tlast := t1 |},
        [{| at_time := t1; key := events_clientMeasurement;
            value := clientMeasurement (count st) (t0 st) t1 |}])
  else (st, []).

(** [socket.onmessage]; when JSON.parse throws the handler is left with
    the variables as they were. *)
Definition onmessage (st : State) (m : Message) : State * list Emission :=
  match data m with
  | Blob size =>
    report {| count := count st + Z.of_N size; t0 := t0 st; tlast := tlast st |}
           (clock m)
  | Text s =>
    match JSON_parse s with
    | None => (st, [])
    | Some v =>
      let server := {| at_time := clock m; key := events_serverMeasurement;
                       value := v |} in
      let '(st', out) :=
        report {| count := count st + Z.of_nat (String.length s);
                  t0 := t0 st; tlast := tlast st |}
               (clock m) in
      (st', server :: out)
    end
  end.

Fixpoint handle_all (st : State) (msgs : list Message) : list Emission :=
  match msgs with
  | [] => []
  | m :: msgs' =>
    let '(st', out) := onmessage st m in
    out ++ handle_all st' msgs'
  end.

(** [measure(socket)], started when the clock reads [start], over the
    messages the socket then delivers. *)
Definition measure (start : Z) (msgs : list Message) : list Emission :=
  handle_all {| count := 0; t0 := start; tlast := start |} msgs.

End Measure.

Definition is_client (e : Emission) : bool :=
  String.eqb (key e) events_clientMeasurement.

(** The client measurements among the emissions, in order. *)
Definition client_emissions (es : list Emission) : list Emission :=
  filter is_client es.

(** How many client measurements were emitted in the interval
    [[a, a + T]]. *)
Definition emitted_within (a T : Z) (es : list Emission) : nat :=
  List.length
    (filter (fun e => (a <=? at_time e) && (at_time e <=? a + T)) (client_emissions es)).

(** Client measurements of a run started at [start]: each comes more
    than 250 ms after the one before (after [last] for the first) and
    has a byte count not below the one before ([bytes] for the first). *)
Fixpoint paced (start last bytes : Z) (es : list Emission) : Prop :=
  match es with
  | [] => True
  | e :: es' =>
    exists n,
      last + 250 < at_time e /\
      bytes <= n /\
      value e = clientMeasurement n start (at_time e) /\
      paced start (at_time e) n es'
  end.

(** The ceiling of [a / b], for [b] positive. *)
Definition ceil_div (a b : Z) : Z := - ((- a) / b).

(** [m] is a measurement with these two numbers in it. *)
Definition measures (m : JSValue) (elapsed : Q) (num_bytes : Z) : Prop :=
  get m "elapsed" = Some (JNumber elapsed) /\
  exists info, get m "app_info" = Some info /\
               get info "num_bytes" = Some (JNumber (inject_Z num_bytes)).

(** [a] was emitted before [b]: neither number decreases. *)
Definition not_decreasing (a b : Emission) : Prop :=
  exists ea na eb nb,
    measures (value a) ea na /\ measures (value b) eb nb /\
    (ea <= eb)%Q /\ na <= nb.

(** The claim that a measurement names its subtest. *)
Definition names_subtest (m : JSValue) : Prop :=
  get m "subtest" = Some (JString "download") \/
  get m "subtest" = Some (JString "upload").

(** The own property names of an object. *)
Definition keys (m : JSValue) : list string :=
  match m with
  | JObject props => map fst props
  | _ => []
  end.

(** A JSON.parse that accepts nothing but the empty object. *)
Definition parse_empty_object (s : string) : option JSValue :=
  if String.eqb s "{}" then Some (JObject []) else None.

End Libndt7.

(* ====================================================================== *)
(** ** Vocabulary for runs of the client and of the command *)
(* ====================================================================== *)

Module ClientRuns.

Import Ndt7Client.


(** An environment where the dial succeeds, the stages report [stage]
    and closing the connection fails with [close]. *)
Definition env_with (stage close : option error) : Env :=
  {| dial_error := fun _ => None;
     peer_frames := [];
     counterflow_result := stage;
     writer_result := stage;
     close_result := close |}.

End ClientRuns.

Module CmdRuns.

Import Cmd.

Section CmdRuns.

Variable Measurement : Type.




End CmdRuns.


(** A script in which the start function of the download panics. *)
Definition start_panics (o : op nat) : Resp nat o :=
  match o as o' return Resp nat o' with
  | StartDownload _ => Panic (Some "invalid memory address or nil pointer dereference")
  | StartUpload _ => Normal ([3%nat], None)
  | cancel => tt
  | _ => Normal tt
  end.

End CmdRuns.

(* ====================================================================== *)
(** ** web/libndt7.js: the client around [measure] *)
(* ====================================================================== *)

Module Libndt7Client.

Import Libndt7.

(** The other entries of the [events] table. *)
Definition events_open : string := "ndt7.open".
Definition events_close : string := "ndt7.close".
Definition events_error : string := "ndt7.error".

(** A handler is a function of the user of the library, known by a
    number.  Handlers are taken to be plain functions that return
    normally and do not call back into the client while they run. *)
Definition Handler := nat.

(** The own properties of [funcs], the most recent assignment first. *)
Definition Funcs := list (string * Handler).

Fixpoint own (funcs : Funcs) (key : string) : option Handler :=
  match funcs with
  | [] => None
  | (k, h) :: funcs' => if String.eqb k key then Some h else own funcs' key
  end.

(** [on(key, handler)]: [funcs[key] = handler].  Assigning to
    [__proto__] creates no own property. *)
Definition on (funcs : Funcs) (key : string) (handler : Handler) : Funcs :=
  if String.eqb key "__proto__" then funcs else (key, handler) :: funcs.

(** A call [funcs[key](value)]. *)
Record Call := {
  callee : Handler;
  argument : JSValue
}.

(** What [emit] calls when the guard is Object.prototype.hasOwnProperty. *)
Definition calls_for (funcs : Funcs) (key : string) (value : JSValue) : list Call :=
  match own funcs key with
  | Some h => [{| callee := h; argument := value |}]
  | None => []
  end.

(** [emit(key, value)].  Once a handler is registered under the name
    hasOwnProperty, [funcs.hasOwnProperty] is that handler and what emit
    does is up to it: that case is left out ([None]). *)
Definition emit (funcs : Funcs) (key : string) (value : JSValue) : option (list Call) :=
  match own funcs "hasOwnProperty" with
  | Some _ => None
  | None => Some (calls_for funcs key value)
  end.

(** The calls of [emit] made by one handler of the socket, in order. *)
Fixpoint deliver (funcs : Funcs) (es : list Emission) : option (list Call) :=
  match es with
  | [] => Some []
  | e :: es' =>
    match emit funcs (key e) (value e), deliver funcs es' with
    | Some c, Some cs => Some (c ++ cs)
    | _, _ => None
    end
  end.

(** What happens on the socket made by [setupconn] and given to
    [measure]. *)
Inductive SocketEvent :=
| Opened
| Closed
| Errored
| Received (m : Message).

(** What the user and the socket do after [startDownload]. *)
Inductive Action :=
| On (key : string) (handler : Handler)
| Socket (ev : SocketEvent).

Section Client.

Variable JSON_parse : string -> option JSValue.

(** The handlers [setupconn] and [measure] put on the socket. *)
Definition socket_handler (funcs : Funcs) (st : State) (ev : SocketEvent)
  : State * option (list Call) :=
  match ev with
  | Opened => (st, emit funcs events_open JNull)
  | Closed => (st, emit funcs events_close JNull)
  | Errored => (st, emit funcs events_error JNull)
  | Received m =>
    let '(st', out) := onmessage JSON_parse st m in
    (st', deliver funcs out)
  end.

Fixpoint session (funcs : Funcs) (st : State) (acts : list Action)
  : option (list Call) :=
  match acts with
  | [] => Some []
  | On key handler :: acts' => session (on funcs key handler) st acts'
  | Socket ev :: acts' =>
    let '(st', calls) := socket_handler funcs st ev in
    match calls, session funcs st' acts' with
    | Some c, Some cs => Some (c ++ cs)
    | _, _ => None
    end
  end.

(** [startDownload()] when the clock reads [start], with the handlers
    registered so far, followed by what the user and the socket do. *)
Definition startDownload (funcs : Funcs) (start : Z) (acts : list Action)
  : option (list Call) :=
  session funcs {| count := 0; t0 := start; tlast := start |} acts.

(** The variables of [measure] after the handler has run on [msgs]. *)
Fixpoint state_after (st : State) (msgs : list Message) : State :=
  match msgs with
  | [] => st
  | m :: msgs' => state_after (fst (onmessage JSON_parse st m)) msgs'
  end.

(** Whether the handler gets past JSON.parse on a message, and the
    bytes the message then adds to [count]. *)
Definition handled (m : Message) : bool :=
  match data m with
  | Blob _ => true
  | Text s => match JSON_parse s with Some _ => true | None => false end
  end.

Definition bytes_of (m : Message) : Z :=
  match data m with
  | Blob size => Z.of_N size
  | Text s =>
    match JSON_parse s with
    | Some _ => Z.of_nat (String.length s)
    | None => 0
    end
  end.

Definition total_bytes (msgs : list Message) : Z :=
  fold_right (fun m acc => bytes_of m + acc) 0 msgs.

(** The server measurement a message is turned into, if any. *)
Definition server_emission (m : Message) : list Emission :=
  match data m with
  | Blob _ => []
  | Text s =>
    match JSON_parse s with
    | Some v => [{| at_time := clock m; key := events_serverMeasurement; value := v |}]
    | None => []
    end
  end.

End Client.

(** When the last client measurement of [es] was emitted; [start] if
    there is none. *)
Definition last_emission (start : Z) (es : list Emission) : Z :=
  last (map at_time (client_emissions es)) start.

End Libndt7Client.

(* ====================================================================== *)
(** ** web/libndt7.js: [makeurl] and [setupconn] *)
(* ====================================================================== *)

Module Libndt7Url.

(** The values [makeurl] meets in [settings].  [settings] is taken to be
    an ordinary object: its own properties are enumerable data
    properties, none is named like an array index, [hasOwnProperty] or
    [__proto__], and it inherits no enumerable property.  [VSelf] is the
    [settings] object itself; any other object is given by its own
    properties. *)
#[local] Unset Elimination Schemes.
Inductive Value :=
| VUndefined
| VNull
| VString (s : string)
| VNumber (q : Q)
| VSelf
| VObject (props : list (string * Value)).
#[local] Set Elimination Schemes.

(** The own properties of an object, in the order they were created. *)
Definition Object := list (string * Value).

Fixpoint lookup (o : Object) (key : string) : option Value :=
  match o with
  | [] => None
  | (k, v) :: o' => if String.eqb k key then Some v else lookup o' key
  end.

(** [o[key]] *)
Definition get (o : Object) (key : string) : Value :=
  match lookup o key with
  | Some v => v
  | None => VUndefined
  end.

(** [o[key] = v]: an existing property keeps its place, a new one goes
    last. *)
Fixpoint assign (o : Object) (key : string) (v : Value) : Object :=
  match o with
  | [] => [(key, v)]
  | (k, x) :: o' =>
    if String.eqb k key then (k, v) :: o' else (k, x) :: assign o' key v
  end.

(** [v !== undefined] *)
Definition defined (v : Value) : bool :=
  match v with
  | VUndefined => false
  | _ => true
  end.

(** const version = 0.7 *)
Definition version : Q := 7 # 10.

(** The calls to the URL, URLSearchParams and WebSocket objects. *)
Inductive op :=
| NewURL (href : Value)                     (* new URL(settings.href) *)
| GetProtocol                               (* url.protocol *)
| SetProtocol (v : string)                  (* url.protocol = v *)
| SetPathname (v : string)                  (* url.pathname = v *)
| Append (key : string) (value : Value)     (* params.append(key, value) *)
| ParamsToString                            (* params.toString() *)
| SetSearch (v : string)                    (* url.search = v *)
| URLToString                               (* url.toString() *)
| NewWebSocket (url : string) (protocols : string).
                                            (* new WebSocket(url, protocols) *)

(** [new URL] and [new WebSocket] answer [false] when they throw. *)
Definition Resp (o : op) : Type :=
  match o with
  | NewURL _ => bool
  | GetProtocol => string
  | ParamsToString => string
  | URLToString => string
  | NewWebSocket _ _ => bool
  | _ => unit
  end.

Local Open Scope prog_scope.
Local Abbreviation call := (@Prog.call op Resp).
Local Abbreviation Ret := (@Prog.Ret op Resp _).

(** [settings.meta[key] = v], where [settings.meta] is [settings]
    itself or an object of its own. *)
Definition assign_meta (settings : Object) (key : string) (v : Value) : Object :=
  match get settings "meta" with
  | VSelf => assign settings key v
  | VObject m => assign settings "meta" (VObject (assign m key v))
  | _ => settings
  end.

(** The own properties of [settings.meta]. *)
Definition meta_properties (settings : Object) : Object :=
  match get settings "meta" with
  | VSelf => settings
  | VObject m => m
  | _ => []
  end.

(** The loop [for (let key in settings.meta)]. *)
Fixpoint append_all (props : Object) : prog op Resp unit :=
  match props with
  | [] => Ret tt
  | (k, v) :: props' => call (Append k v);; append_all props'
  end.

(** makeurl creates the URL from |settings| and |subtest| name.  It
    returns the URL, or nothing when [new URL] throws, and [settings] as
    it leaves it. *)
Definition makeurl (settings : Object) (subtest : string)
  : prog op Resp (option string * Object) :=
  ok <- call (NewURL (get settings "href"));;
  if ok
  then
    protocol <- call GetProtocol;;
    call (SetProtocol (if String.eqb protocol "https:" then "wss:" else "ws:"));;
    call (SetPathname ("/ndt/v7/" ++ subtest)%string);;
    let settings :=
      assign settings "meta"
        (if defined (get settings "meta") then VSelf else VObject []) in
    let settings := assign_meta settings "library.name" (VString "libndt7.js") in
    let settings := assign_meta settings "library.version" (VNumber version) in
    append_all (meta_properties settings);;
    search <- call ParamsToString;;
    call (SetSearch search);;
    url <- call URLToString;;
    Ret (Some url, settings)
  else Ret (None, settings).


(** What the browser answers during one call. *)
Record Browser := {
  href_parses : bool;
  protocol : string;
  search : string;
  href : string;
  socket_opens : bool
}.

Definition browser (b : Browser) (o : op) (w : unit) : Resp o * unit :=
  match o as o' return Resp o' * unit with
  | NewURL _ => (href_parses b, w)
  | GetProtocol => (protocol b, w)
  | SetProtocol _ => (tt, w)
  | SetPathname _ => (tt, w)
  | Append _ _ => (tt, w)
  | ParamsToString => (search b, w)
  | SetSearch _ => (tt, w)
  | URLToString => (href b, w)
  | NewWebSocket _ _ => (socket_opens b, w)
  end.

Definition appends (props : Object) : list op :=
  map (fun kv => Append (fst kv) (snd kv)) props.


(** A browser for a page served over https. *)
Definition https_page : Browser :=
  {| href_parses := true;
     protocol := "https:";
     search := "library.name=libndt7.js&library.version=0.7";
     href := "wss://example.org/ndt/v7/download?library.name=libndt7.js&library.version=0.7";
     socket_opens := true |}.

End Libndt7Url.

(* ====================================================================== *)
(** * Properties *)
(* ====================================================================== *)

(** ** sink.Writer *)

Section SinkProperties.

Import Sink.

Variable Conn : Type.
Variable WriteMessage : Conn -> Z -> bytes -> Conn * option error.

Local Abbreviation loop := (Sink.loop WriteMessage).
Local Abbreviation Writer := (Sink.Writer WriteMessage).
Local Abbreviation conn_after := (Sink.conn_after WriteMessage).
Local Abbreviation writes_ok := (Sink.writes_ok WriteMessage).

Lemma outputs_app (a b : list event) : outputs (a ++ b) = outputs a ++ outputs b.
Proof. apply flat_map_app. Qed.

Lemma writes_app (a b : list event) : writes (a ++ b) = writes a ++ writes b.
Proof. apply flat_map_app. Qed.

Lemma received_app (a b : list event) : received (a ++ b) = received a ++ received b.
Proof. apply flat_map_app. Qed.

Lemma channel_view_app (a b : list event) :
  channel_view (a ++ b) = channel_view a ++ channel_view b.
Proof. apply filter_app. Qed.

Lemma outputs_drain (l : list MeasureResult) : outputs (drain l) = [].
Proof. induction l; simpl; auto. Qed.

Lemma writes_drain (l : list MeasureResult) : writes (drain l) = [].
Proof. induction l; simpl; auto. Qed.

Lemma received_drain (l : list MeasureResult) : received (drain l) = l.
Proof. induction l; simpl; congruence. Qed.

Lemma channel_view_drain (l : list MeasureResult) : channel_view (drain l) = [].
Proof. induction l; simpl; auto. Qed.

Lemma Close_not_in_drain (l : list MeasureResult) : ~ In Close (drain l).
Proof. induction l; simpl; intuition discriminate. Qed.

Lemma outputs_written (l : list MeasureResult) : outputs (written l) = [].
Proof. induction l; simpl; auto. Qed.

Lemma writes_written (l : list MeasureResult) :
  writes (written l) = map (fun mr => (TextMessage, Measurement mr)) l.
Proof. induction l; simpl; congruence. Qed.

Lemma received_written (l : list MeasureResult) : received (written l) = l.
Proof. induction l; simpl; congruence. Qed.

Lemma skipn_past (A : Type) (pre : list A) (x : A) (post : list A) :
  skipn (S (List.length pre)) (pre ++ x :: post) = post.
Proof. induction pre as [|a pre IH]; [reflexivity | exact IH]. Qed.

(** While the envelopes are payloads and the writes succeed, the loop
    goes on: it leaves [pre] behind as [written pre]. *)
Lemma loop_written (pre rest : list MeasureResult) : forall conn,
  forallb is_payload pre = true ->
  writes_ok conn pre = true ->
  loop conn (pre ++ rest) =
    (fst (fst (loop (conn_after conn pre) rest)),
     snd (fst (loop (conn_after conn pre) rest)),
     written pre ++ snd (loop (conn_after conn pre) rest)).
Proof.
  induction pre as [|mr pre IH]; intros conn Hp Hw.
  - simpl. destruct (loop conn rest) as [[c r] t]. reflexivity.
  - simpl in Hp. apply andb_true_iff in Hp. destruct Hp as [Hmr Hp].
    unfold is_payload in Hmr.
    simpl in Hw |- *.
    destruct (Err mr) eqn:E; [discriminate|].
    destruct (WriteMessage conn TextMessage (Measurement mr)) as [conn1 [e|]] eqn:W;
      [discriminate|].
    simpl. rewrite (IH conn1 Hp Hw). reflexivity.
Qed.

(** What the loop guarantees on every input. *)
Lemma loop_invariant (input : list MeasureResult) : forall conn,
  let '(_, rest, tr) := loop conn input in
  received tr ++ rest = input /\
  (channel_view tr = [] \/ exists e, channel_view tr = [Send e]) /\
  ~ In Close tr.
Proof.
  induction input as [|mr input IH]; intros conn; simpl.
  - intuition.
  - destruct (Err mr) as [e|] eqn:E.
    + simpl. split; [reflexivity|]. split; [right; eauto|]. intuition discriminate.
    + destruct (WriteMessage conn TextMessage (Measurement mr)) as [conn1 [e|]].
      * simpl. split; [reflexivity|]. split; [right; eauto|]. intuition discriminate.
      * specialize (IH conn1). destruct (loop conn1 input) as [[c r] t].
        destruct IH as (Hr & Hc & Hn). simpl.
        split; [congruence|]. split; [exact Hc|]. intuition discriminate.
Qed.

(** The events of a run that meets an error envelope after [pre]. *)
Lemma trace_upstream_error (conn : Conn) (pre : list MeasureResult)
    (mr : MeasureResult) (e : error) (post : list MeasureResult) :
  forallb is_payload pre = true ->
  writes_ok conn pre = true ->
  Err mr = Some e ->
  Writer conn (pre ++ mr :: post) =
    (conn_after conn pre,
     [Debug "sink.Writer: start"] ++ written pre
       ++ [Recv mr; Send e]
       ++ map Recv post
       ++ [Debug "sink.Writer: stop"; Close]).
Proof.
  intros Hp Hw He.
  unfold Sink.Writer. rewrite (loop_written pre (mr :: post) conn Hp Hw).
  simpl. rewrite He. simpl. rewrite <- app_assoc. reflexivity.
Qed.

(** The events of a run whose write fails after [pre]. *)
Lemma trace_write_failure (conn : Conn) (pre : list MeasureResult)
    (mr : MeasureResult) (e : error) (post : list MeasureResult) :
  forallb is_payload pre = true ->
  writes_ok conn pre = true ->
  Err mr = None ->
  snd (WriteMessage (conn_after conn pre) TextMessage (Measurement mr)) = Some e ->
  snd (Writer conn (pre ++ mr :: post)) =
    [Debug "sink.Writer: start"] ++ written pre
      ++ [Recv mr; Write TextMessage (Measurement mr) (Some e);
          Warn e "WriteMessage failed"; Send e]
      ++ map Recv post
      ++ [Debug "sink.Writer: stop"; Close].
Proof.
  intros Hp Hw Hmr Hfail.
  unfold Sink.Writer. rewrite (loop_written pre (mr :: post) conn Hp Hw).
  simpl. rewrite Hmr.
  destruct (WriteMessage (conn_after conn pre) TextMessage (Measurement mr))
    as [c1 r1]. simpl in Hfail. subst r1. simpl.
  rewrite <- app_assoc. reflexivity.
Qed.

Lemma received_of_run (pre : list MeasureResult) (mid : list event)
    (mr : MeasureResult) (post : list MeasureResult) :
  received mid = [mr] ->
  received ([Debug "sink.Writer: start"] ++ written pre ++ mid ++ map Recv post
              ++ [Debug "sink.Writer: stop"; Close]) = pre ++ mr :: post.
Proof.
  intros Hmid. rewrite !received_app, received_written, Hmid. fold (drain post).
  rewrite received_drain. simpl. rewrite app_nil_r. reflexivity.
Qed.

(** C1: when the loop of sink.Writer meets the first envelope that
    carries an error (the payloads before it were written), it sends
    exactly that error on the output channel and nothing else, makes no
    write on the connection from then on, receives and discards every
    remaining envelope, and only then closes the output. *)
Theorem Writer_forwards_first_upstream_error
    (conn : Conn) (pre : list MeasureResult) (mr : MeasureResult) (e : error)
    (post : list MeasureResult) :
  forallb is_payload pre = true ->
  writes_ok conn pre = true ->
  Err mr = Some e ->
  let tr := snd (Writer conn (pre ++ mr :: post)) in
  tr = [Debug "sink.Writer: start"] ++ written pre
         ++ [Recv mr; Send e]
         ++ map Recv post
         ++ [Debug "sink.Writer: stop"; Close] /\
  outputs tr = [e] /\
  writes tr = map (fun m => (TextMessage, Measurement m)) pre /\
  received tr = pre ++ mr :: post /\
  fst (Writer conn (pre ++ mr :: post)) = conn_after conn pre.
Proof.
  intros Hp Hw He tr. subst tr.
  rewrite (trace_upstream_error conn pre mr e post Hp Hw He). cbn [fst snd].
  split; [reflexivity|]. repeat split.
  - rewrite !outputs_app, outputs_written. fold (drain post).
    rewrite outputs_drain. reflexivity.
  - rewrite !writes_app, writes_written. fold (drain post).
    rewrite writes_drain. simpl. apply app_nil_r.
  - apply received_of_run. reflexivity.
Qed.

(** C3: a payload envelope is written as one text frame; when that
    write fails, the write error is the only item sent on the output
    channel, no later payload is written, and the rest of the input is
    received and discarded before the output is closed, exactly as after
    an envelope carrying that error. *)
Theorem Writer_write_failure_like_upstream_error
    (conn : Conn) (pre : list MeasureResult) (mr : MeasureResult) (e : error)
    (post : list MeasureResult) :
  forallb is_payload pre = true ->
  writes_ok conn pre = true ->
  Err mr = None ->
  snd (WriteMessage (conn_after conn pre) TextMessage (Measurement mr)) = Some e ->
  let tr := snd (Writer conn (pre ++ mr :: post)) in
  tr = [Debug "sink.Writer: start"] ++ written pre
         ++ [Recv mr; Write TextMessage (Measurement mr) (Some e);
             Warn e "WriteMessage failed"; Send e]
         ++ map Recv post
         ++ [Debug "sink.Writer: stop"; Close] /\
  outputs tr = [e] /\
  writes tr = map (fun m => (TextMessage, Measurement m)) (pre ++ [mr]) /\
  received tr = pre ++ mr :: post /\
  channel_view tr = channel_view (snd (Writer conn (pre ++ failure e :: post))) /\
  skipn (S (List.length pre)) (received tr) =
    skipn (S (List.length pre)) (received (snd (Writer conn (pre ++ failure e :: post)))).
Proof.
  intros Hp Hw Hmr Hfail tr. subst tr.
  rewrite (trace_write_failure conn pre mr e post Hp Hw Hmr Hfail).
  rewrite (trace_upstream_error conn pre (failure e) e post Hp Hw eq_refl).
  cbn [snd].
  assert (Hr : forall mid m, received mid = [m] ->
             received ([Debug "sink.Writer: start"] ++ written pre ++ mid
                         ++ map Recv post ++ [Debug "sink.Writer: stop"; Close])
             = pre ++ m :: post).
  { intros mid m Hmid. apply received_of_run. exact Hmid. }
  split; [reflexivity|]. repeat split.
  - rewrite !outputs_app, outputs_written. fold (drain post).
    rewrite outputs_drain. reflexivity.
  - rewrite !writes_app, writes_written. fold (drain post).
    rewrite writes_drain. simpl. rewrite map_app. reflexivity.
  - apply Hr. reflexivity.
  - rewrite !channel_view_app. reflexivity.
  - rewrite (Hr [Recv mr; Write TextMessage (Measurement mr) (Some e);
                 Warn e "WriteMessage failed"; Send e] mr eq_refl).
    rewrite (Hr [Recv (failure e); Send e] (failure e) eq_refl).
    rewrite !skipn_past. reflexivity.
Qed.

(** C9: on every input and whatever the connection does, sink.Writer
    receives the whole input, in order, before it closes the output
    channel; closing is the last thing it does; and a consumer of the
    output sees either end-of-stream alone or one error followed by
    end-of-stream. *)
Theorem Writer_drains_input_and_closes_output
    (conn : Conn) (input : list MeasureResult) :
  let tr := snd (Writer conn input) in
  received tr = input /\
  (channel_view tr = [Close] \/ exists e, channel_view tr = [Send e; Close]) /\
  (List.length (outputs tr) <= 1)%nat /\
  exists tr0, tr = tr0 ++ [Close] /\ received tr0 = input /\ ~ In Close tr0.
Proof.
  intros tr. subst tr. unfold Sink.Writer.
  pose proof (loop_invariant input conn) as H.
  destruct (loop conn input) as [[c rest] t]. destruct H as (Hr & Hc & Hn).
  cbn [snd].
  assert (Hrecv : received (Debug "sink.Writer: start" :: t ++ drain rest
                              ++ [Debug "sink.Writer: stop"]) = input).
  { change (Debug "sink.Writer: start" :: t ++ drain rest ++ [Debug "sink.Writer: stop"])
      with ([Debug "sink.Writer: start"] ++ t ++ drain rest ++ [Debug "sink.Writer: stop"]).
    rewrite !received_app, received_drain. simpl. rewrite app_nil_r. exact Hr. }
  assert (Hview : channel_view (Debug "sink.Writer: start" :: t ++ drain rest
                                  ++ [Debug "sink.Writer: stop"] ++ [Close])
                  = channel_view t ++ [Close]).
  { change (Debug "sink.Writer: start" :: t ++ drain rest
              ++ [Debug "sink.Writer: stop"] ++ [Close])
      with ([Debug "sink.Writer: start"] ++ t ++ drain rest
              ++ [Debug "sink.Writer: stop"] ++ [Close]).
    rewrite !channel_view_app, channel_view_drain. reflexivity. }
  assert (Hout : forall l, outputs l = outputs (channel_view l)).
  { induction l as [|ev l IHl]; [reflexivity|].
    destruct ev; simpl; rewrite IHl; reflexivity. }
  split; [|split; [|split]].
  - change (Debug "sink.Writer: start" :: t ++ drain rest
              ++ [Debug "sink.Writer: stop"] ++ [Close])
      with ([Debug "sink.Writer: start"] ++ t ++ drain rest
              ++ [Debug "sink.Writer: stop"] ++ [Close]).
    rewrite !received_app, received_drain. simpl. rewrite !app_nil_r. exact Hr.
  - rewrite Hview. destruct Hc as [Hc | [e Hc]]; rewrite Hc; [left | right; exists e];
      reflexivity.
  - rewrite Hout, Hview. destruct Hc as [Hc | [e Hc]]; rewrite Hc; simpl; lia.
  - exists (Debug "sink.Writer: start" :: t ++ drain rest ++ [Debug "sink.Writer: stop"]).
    split; [|split].
    + simpl. rewrite <- !app_assoc. reflexivity.
    + exact Hrecv.
    + simpl. intros [Hd | Hin]; [discriminate|].
      apply in_app_or in Hin. destruct Hin as [Hin | Hin]; [exact (Hn Hin)|].
      apply in_app_or in Hin. destruct Hin as [Hin | Hin].
      * exact (Close_not_in_drain rest Hin).
      * simpl in Hin. destruct Hin as [Hd | []]. discriminate.
Qed.

End SinkProperties.

(** C1, on scenario B of the specification: [payload, payload, error,
    payload] on a connection that works. *)
Lemma Writer_forwards_first_upstream_error_witness :
  let pre := [Sink.payload []; Sink.payload []] in
  let mr := Sink.failure "boom" in
  let post := [Sink.payload []] in
  forallb Sink.is_payload pre = true /\
  Sink.writes_ok (Sink.fail_from 5) 0%nat pre = true /\
  Sink.Err mr = Some "boom" /\
  let tr := snd (Sink.Writer (Sink.fail_from 5) 0%nat (pre ++ mr :: post)) in
  Sink.outputs tr = ["boom"] /\
  Sink.writes tr = [(1, []); (1, [])] /\
  Sink.received tr = pre ++ mr :: post.
Proof.
  split; [reflexivity|]. split; [reflexivity|]. split; [reflexivity|].
  destruct (Writer_forwards_first_upstream_error nat (Sink.fail_from 5) 0%nat
              [Sink.payload []; Sink.payload []] (Sink.failure "boom") "boom"
              [Sink.payload []] eq_refl eq_refl eq_refl) as (_ & Ho & Hw & Hr & _).
  split; [exact Ho|]. split; [exact Hw | exact Hr].
Defined.

(** C3, on a connection that fails at its second write. *)
Lemma Writer_write_failure_like_upstream_error_witness :
  let pre := [Sink.payload []] in
  let mr := Sink.payload [Byte.x7b; Byte.x7d] in
  let post := [Sink.payload []; Sink.failure "late"] in
  let e := "write: broken pipe" in
  forallb Sink.is_payload pre = true /\
  Sink.writes_ok (Sink.fail_from 1) 0%nat pre = true /\
  Sink.Err mr = None /\
  snd (Sink.fail_from 1 (Sink.conn_after (Sink.fail_from 1) 0%nat pre)
         Sink.TextMessage (Sink.Measurement mr)) = Some e /\
  let tr := snd (Sink.Writer (Sink.fail_from 1) 0%nat (pre ++ mr :: post)) in
  Sink.outputs tr = [e] /\
  Sink.writes tr = [(1, []); (1, [Byte.x7b; Byte.x7d])] /\
  Sink.received tr = pre ++ mr :: post.
Proof.
  split; [reflexivity|]. split; [reflexivity|].
  split; [reflexivity|]. split; [reflexivity|].
  destruct (Writer_write_failure_like_upstream_error nat (Sink.fail_from 1) 0%nat
              [Sink.payload []] (Sink.payload [Byte.x7b; Byte.x7d])
              "write: broken pipe" [Sink.payload []; Sink.failure "late"]
              eq_refl eq_refl eq_refl eq_refl) as (_ & Ho & Hw & Hr & _).
  split; [exact Ho|]. split; [exact Hw|exact Hr].
Defined.

(** ** Runs of programs *)

Section ProgProperties.

Variable Op : Type.
Variable Resp : Op -> Type.
Variable World : Type.
Variable handle : forall o : Op, World -> Resp o * World.

Lemma run_bind (A B : Type) (p : prog Op Resp A) (f : A -> prog Op Resp B) :
  forall w,
  run handle (bind p f) w =
    (fst (fst (run handle (f (result_of handle p w)) (world_of handle p w))),
     snd (fst (run handle (f (result_of handle p w)) (world_of handle p w))),
     trace_of handle p w
       ++ snd (run handle (f (result_of handle p w)) (world_of handle p w))).
Proof.
  unfold result_of, world_of, trace_of.
  induction p as [a | o k IH]; intros w; simpl.
  - destruct (run handle (f a) w) as [[b w2] t]. reflexivity.
  - destruct (handle o w) as [r w1]. rewrite IH.
    destruct (run handle (k r) w1) as [[a w2] t]. simpl.
    reflexivity.
Qed.

Lemma trace_of_bind (A B : Type) (p : prog Op Resp A) (f : A -> prog Op Resp B) w :
  trace_of handle (bind p f) w =
    trace_of handle p w
      ++ trace_of handle (f (result_of handle p w)) (world_of handle p w).
Proof. unfold trace_of at 1. rewrite run_bind. reflexivity. Qed.

Lemma result_of_bind (A B : Type) (p : prog Op Resp A) (f : A -> prog Op Resp B) w :
  result_of handle (bind p f) w =
    result_of handle (f (result_of handle p w)) (world_of handle p w).
Proof. unfold result_of at 1. rewrite run_bind. reflexivity. Qed.

Lemma world_of_bind (A B : Type) (p : prog Op Resp A) (f : A -> prog Op Resp B) w :
  world_of handle (bind p f) w =
    world_of handle (f (result_of handle p w)) (world_of handle p w).
Proof. unfold world_of at 1. rewrite run_bind. reflexivity. Qed.

End ProgProperties.

(** ** package client *)

Section ClientProperties.

Import Ndt7Client.

Variable URL_String : URL -> string.
Variable CanonicalMIMEHeaderKey : string -> string.
Variable World : Type.
Variable handle : forall o : op, World -> Resp o * World.

Local Abbreviation dial := (Ndt7Client.dial URL_String CanonicalMIMEHeaderKey).
Local Abbreviation Download := (Ndt7Client.Download URL_String CanonicalMIMEHeaderKey).
Local Abbreviation Upload := (Ndt7Client.Upload URL_String CanonicalMIMEHeaderKey).
Local Abbreviation dial_call := (Ndt7Client.dial_call URL_String CanonicalMIMEHeaderKey).
Local Abbreviation dial_log := (Ndt7Client.dial_log URL_String).
Local Abbreviation dial_outcome :=
  (Ndt7Client.dial_outcome URL_String CanonicalMIMEHeaderKey handle).
Local Abbreviation world_after_dial :=
  (Ndt7Client.world_after_dial URL_String CanonicalMIMEHeaderKey handle).
Local Abbreviation subtests := (Ndt7Client.subtests URL_String CanonicalMIMEHeaderKey).

(** Case analysis on the answers of the environment, one call at a
    time. *)
Ltac env_cases :=
  repeat match goal with
         | |- context [handle ?o ?x] => destruct (handle o x) as [? ?]; simpl
         | |- context [match ?r with Some _ => _ | None => _ end] =>
           destruct r; simpl
         end.

(** A run of [dial]: the log line, the call of the dialer and, when
    that call gives a connection, the read limit. *)
Lemma run_dial (cl : Client) (urlpath : string) (w : World) :
  run handle (dial cl urlpath) w =
    match dial_outcome cl urlpath w with
    | inr err =>
      (inr err, world_after_dial cl urlpath w,
       [dial_log cl urlpath; dial_call cl urlpath])
    | inl conn =>
      (inl conn,
       snd (handle (SetReadLimit conn 131072) (world_after_dial cl urlpath w)),
       [dial_log cl urlpath; dial_call cl urlpath; SetReadLimit conn 131072])
    end.
Proof.
  unfold Ndt7Client.dial_outcome, Ndt7Client.world_after_dial,
    Ndt7Client.dial_call, Ndt7Client.dial_log, Ndt7Client.dial_URL,
    Ndt7Client.dial, Ndt7Client.Header_Add.
  simpl.
  destruct (handle (Debugf "Connecting to: %s" _) w) as [[] w1]. simpl.
  replace (3 * Second) with 3000000000 by reflexivity.
  destruct (Insecure cl); simpl;
    match goal with
    | |- context [handle (Dial ?d ?u ?h) w1] =>
      destruct (handle (Dial d u h) w1) as [[conn | err] w2]
    end; simpl; try reflexivity;
    destruct (handle (SetReadLimit conn 131072) w2) as [[] w3]; reflexivity.
Qed.

Lemma run_subtest_dial_failure (cl : Client) (w : World) (err : error)
    (method : Client -> prog op Resp (option error)) (urlpath : string) :
  In (method, urlpath) subtests ->
  dial_outcome cl urlpath w = inr err ->
  run handle (method cl) w =
    (Some err, world_after_dial cl urlpath w,
     [dial_log cl urlpath; dial_call cl urlpath]).
Proof.
  intros Hin Hfail.
  destruct Hin as [Heq | [Heq | []]]; inversion Heq; subst; clear Heq.
  - unfold Ndt7Client.Download. rewrite run_bind.
    unfold result_of, world_of, trace_of. rewrite run_dial, Hfail. reflexivity.
  - unfold Ndt7Client.Upload. rewrite run_bind.
    unfold result_of, world_of, trace_of. rewrite run_dial, Hfail. reflexivity.
Qed.

Lemma trace_subtest_starts_with_dial (cl : Client) (w : World)
    (method : Client -> prog op Resp (option error)) (urlpath : string) :
  In (method, urlpath) subtests ->
  exists tr,
    trace_of handle (method cl) w = dial_log cl urlpath :: dial_call cl urlpath :: tr /\
    filter is_dial tr = [].
Proof.
  intros Hin.
  destruct Hin as [Heq | [Heq | []]]; inversion Heq; subst; clear Heq.
  - unfold Ndt7Client.Download. rewrite trace_of_bind.
    unfold result_of, world_of, trace_of at 1. rewrite run_dial.
    destruct (dial_outcome cl "/ndt/v7/download" w) as [conn | err]; cbn [fst snd].
    + eexists. split; [reflexivity|].
      unfold trace_of. simpl. env_cases; reflexivity.
    + eexists. split; reflexivity.
  - unfold Ndt7Client.Upload. rewrite trace_of_bind.
    unfold result_of, world_of, trace_of at 1. rewrite run_dial.
    destruct (dial_outcome cl "/ndt/v7/upload" w) as [conn | err]; cbn [fst snd].
    + eexists. split; [reflexivity|].
      unfold trace_of. simpl. env_cases; reflexivity.
    + eexists. split; reflexivity.
Qed.

(** C4: when the dial fails, Download (and in the same way Upload)
    returns the error of the dialer at once: the run consists of the log
    line and the call of the dialer, no stage of the protocol is started
    and nothing else is called.  The failure ends that subtest only: a
    subtest run next dials again. *)
Theorem dial_failure_is_returned_and_nothing_runs
    (cl : Client) (w : World) (err : error)
    (method : Client -> prog op Resp (option error)) (urlpath : string) :
  In (method, urlpath) subtests ->
  dial_outcome cl urlpath w = inr err ->
  result_of handle (method cl) w = Some err /\
  trace_of handle (method cl) w = [dial_log cl urlpath; dial_call cl urlpath] /\
  filter is_stage (trace_of handle (method cl) w) = [] /\
  forall (next : Client -> prog op Resp (option error)) (nextpath : string),
    In (next, nextpath) subtests ->
    exists tr,
      trace_of handle (bind (method cl) (fun _ => next cl)) w =
        [dial_log cl urlpath; dial_call cl urlpath]
          ++ dial_log cl nextpath :: dial_call cl nextpath :: tr.
Proof.
  intros Hin Hfail.
  pose proof (run_subtest_dial_failure cl w err method urlpath Hin Hfail) as Hrun.
  assert (Htr : trace_of handle (method cl) w
                = [dial_log cl urlpath; dial_call cl urlpath]).
  { unfold trace_of. rewrite Hrun. reflexivity. }
  split; [unfold result_of; rewrite Hrun; reflexivity|].
  split; [exact Htr|].
  split; [rewrite Htr; reflexivity|].
  intros next nextpath Hnext.
  rewrite trace_of_bind, Htr.
  destruct (trace_subtest_starts_with_dial cl (world_of handle (method cl) w)
              next nextpath Hnext) as (tr & Hn & _).
  exists tr. rewrite Hn. reflexivity.
Qed.

(** C7: every run of Download and of Upload asks the dialer, once, for
    a handshake with the header Sec-WebSocket-Protocol set to
    net.measurementlab.ndt.v7, on the URL whose path is /ndt/v7/download
    for Download and /ndt/v7/upload for Upload. *)
Theorem handshake_subprotocol_and_path (cl : Client) (w : World) :
  (exists d tr,
     trace_of handle (Download cl) w =
       Debugf "Connecting to: %s"
              (URL_String {| Scheme := "wss";
                             Host := (Hostname cl ++ ":" ++ Port cl)%string;
                             Path := "/ndt/v7/download" |})
       :: Dial d
               (URL_String {| Scheme := "wss";
                              Host := (Hostname cl ++ ":" ++ Port cl)%string;
                              Path := "/ndt/v7/download" |})
               (Header_Add CanonicalMIMEHeaderKey []
                           "Sec-WebSocket-Protocol" "net.measurementlab.ndt.v7")
       :: tr /\
     filter is_dial tr = []) /\
  (exists d tr,
     trace_of handle (Upload cl) w =
       Debugf "Connecting to: %s"
              (URL_String {| Scheme := "wss";
                             Host := (Hostname cl ++ ":" ++ Port cl)%string;
                             Path := "/ndt/v7/upload" |})
       :: Dial d
               (URL_String {| Scheme := "wss";
                              Host := (Hostname cl ++ ":" ++ Port cl)%string;
                              Path := "/ndt/v7/upload" |})
               (Header_Add CanonicalMIMEHeaderKey []
                           "Sec-WebSocket-Protocol" "net.measurementlab.ndt.v7")
       :: tr /\
     filter is_dial tr = []).
Proof.
  split.
  - destruct (trace_subtest_starts_with_dial cl w Download "/ndt/v7/download")
      as (tr & Htr & Hnone); [left; reflexivity|].
    eexists. exists tr. split; [exact Htr | exact Hnone].
  - destruct (trace_subtest_starts_with_dial cl w Upload "/ndt/v7/upload")
      as (tr & Htr & Hnone); [right; left; reflexivity|].
    eexists. exists tr. split; [exact Htr | exact Hnone].
Qed.

(** C10: whatever the host, the port, the Insecure flag and the path,
    the URL [dial] builds and hands to the dialer has the scheme wss, the
    host and the path it was given and nothing that depends on Insecure;
    the flag decides only whether the dialer carries a TLS configuration
    with InsecureSkipVerify set. *)
Theorem dial_URL_scheme_is_wss (cl : Client) (urlpath : string) (w : World) :
  exists d u tr,
    trace_of handle (dial cl urlpath) w =
      Debugf "Connecting to: %s" (URL_String u)
      :: Dial d (URL_String u)
              (Header_Add CanonicalMIMEHeaderKey []
                          "Sec-WebSocket-Protocol" "net.measurementlab.ndt.v7")
      :: tr /\
    filter is_dial tr = [] /\
    u = {| Scheme := "wss";
           Host := (Hostname cl ++ ":" ++ Port cl)%string;
           Path := urlpath |} /\
    Scheme u = "wss" /\
    TLSClientConfig d =
      (if Insecure cl then Some {| InsecureSkipVerify := true |} else None) /\
    HandshakeTimeout d = 3 * Second.
Proof.
  unfold trace_of. rewrite run_dial.
  eexists. eexists.
  destruct (dial_outcome cl urlpath w) as [conn | err]; cbn [snd];
    eexists; (split; [reflexivity|]); repeat split; reflexivity.
Qed.

End ClientProperties.

(** ** The read limit of a dialed connection *)

Section ReadLimit.

Import Ndt7Client.

Variable URL_String : URL -> string.
Variable CanonicalMIMEHeaderKey : string -> string.
Variable env : Env.

Local Abbreviation dial := (Ndt7Client.dial URL_String CanonicalMIMEHeaderKey).
Local Abbreviation dial_call := (Ndt7Client.dial_call URL_String CanonicalMIMEHeaderKey).
Local Abbreviation dial_log := (Ndt7Client.dial_log URL_String).

Lemma update_last (cs : list ConnState) (c : ConnState) (f : ConnState -> ConnState) :
  update (cs ++ [c]) (List.length cs) f = cs ++ [f c].
Proof. induction cs as [|c0 cs IH]; simpl; [reflexivity | rewrite IH; reflexivity]. Qed.

Lemma nth_error_last (cs : list ConnState) (c : ConnState) :
  nth_error (cs ++ [c]) (List.length cs) = Some c.
Proof. induction cs as [|c0 cs IH]; simpl; [reflexivity | exact IH]. Qed.

Lemma net_dial (cl : Client) (urlpath : string) (n : Net) :
  net_handle env (dial_call cl urlpath) n =
    match dial_error env (URL_String (dial_URL cl urlpath)) with
    | Some e => (inr e, n)
    | None =>
      (inl (List.length (conns n)),
       {| conns := conns n ++ [{| readLimit := None; closed := false;
                                  inbound := peer_frames env |}];
          chans := chans n |})
    end.
Proof. reflexivity. Qed.

(** Frames within the limit go through; the first frame above it ends
    the sequence with an error envelope. *)
Lemma FrameReader_too_large (limit : Z) (pre : list Frame) (f : Frame)
    (post : list Frame) :
  (forall g, In g pre -> frame_size g <= limit) ->
  limit < frame_size f ->
  FrameReader (Some limit) (pre ++ f :: post) =
    text_payloads pre ++ [Sink.failure "websocket: read limit exceeded"].
Proof.
  unfold frame_size, text_payloads. intros Hpre Hf.
  induction pre as [|g pre IH]; simpl.
  - apply Z.ltb_lt in Hf. rewrite Hf. reflexivity.
  - assert (Hg : (limit <? Z.of_nat (List.length (data g))) = false).
    { apply Z.ltb_ge. apply Hpre. left. reflexivity. }
    rewrite Hg. rewrite IH by (intros g' Hin; apply Hpre; right; exact Hin).
    destruct (messageType g =? Sink.TextMessage); reflexivity.
Qed.

(** C5: a connection that [dial] returns has had its read limit set to
    1 << 17 = 128 KiB, by the one call made after the dialer; with that
    limit the frame reader delivers the frames up to 128 KiB and, at the
    first larger frame, ends the sequence with an error envelope: no
    envelope holds any part of that frame or of what follows it. *)
Theorem dialed_connection_has_read_limit
    (cl : Client) (urlpath : string) (n : Net) (conn : Conn) :
  result_of (net_handle env) (dial cl urlpath) n = inl conn ->
  Z.shiftl 1 17 = 128 * 1024 /\
  trace_of (net_handle env) (dial cl urlpath) n =
    [dial_log cl urlpath; dial_call cl urlpath; SetReadLimit conn (128 * 1024)] /\
  exists cs,
    conn_state (world_of (net_handle env) (dial cl urlpath) n) conn = Some cs /\
    readLimit cs = Some (128 * 1024) /\
    inbound cs = peer_frames env /\
    forall (pre : list Frame) (f : Frame) (post : list Frame),
      (forall g, In g pre -> frame_size g <= 128 * 1024) ->
      128 * 1024 < frame_size f ->
      FrameReader (readLimit cs) (pre ++ f :: post) =
        text_payloads pre ++ [Sink.failure "websocket: read limit exceeded"].
Proof.
  unfold result_of, world_of, trace_of. rewrite run_dial.
  unfold Ndt7Client.dial_outcome, Ndt7Client.world_after_dial.
  change (net_handle env (dial_log cl urlpath) n) with (tt, n). cbn [snd].
  rewrite net_dial.
  destruct (dial_error env _) as [e|]; cbn [fst snd]; [discriminate|].
  intros Hconn. inversion Hconn; subst conn; clear Hconn.
  split; [reflexivity|]. split; [reflexivity|].
  exists {| readLimit := Some 131072; closed := false; inbound := peer_frames env |}.
  unfold conn_state. cbn [net_handle snd conns].
  rewrite update_last, nth_error_last.
  split; [reflexivity|]. split; [reflexivity|]. split; [reflexivity|].
  intros pre f post Hpre Hf. cbn [readLimit].
  apply FrameReader_too_large; assumption.
Qed.

End ReadLimit.

(** A download against a server that accepts: the calls of one run. *)
Example Download_localhost :
  run (Ndt7Client.net_handle Ndt7Client.env_ok)
      (Ndt7Client.Download Ndt7Client.simple_URL_String Ndt7Client.simple_canonical
         Ndt7Client.localhost)
      Ndt7Client.empty_net
  = (None,
     {| Ndt7Client.conns :=
          [{| Ndt7Client.readLimit := Some 131072; Ndt7Client.closed := true;
              Ndt7Client.inbound := [] |}];
        Ndt7Client.chans := 2 |},
     [Ndt7Client.Debugf "Connecting to: %s" "wss://localhost:443/ndt/v7/download";
      Ndt7Client.Dial
        {| Ndt7Client.TLSClientConfig :=
             Some {| Ndt7Client.InsecureSkipVerify := true |};
           Ndt7Client.HandshakeTimeout := 3000000000 |}
        "wss://localhost:443/ndt/v7/download"
        [("Sec-Websocket-Protocol", ["net.measurementlab.ndt.v7"])];
      Ndt7Client.SetReadLimit 0%nat 131072;
      Ndt7Client.Reader 0%nat;
      Ndt7Client.Measurer 0%nat;
      Ndt7Client.Counterflow 0%nat 1%nat;
      Ndt7Client.ConnClose 0%nat]).
Proof. reflexivity. Qed.

(** C4, for a server that refuses the connection. *)
Lemma dial_failure_is_returned_and_nothing_runs_witness :
  let handle := Ndt7Client.net_handle Ndt7Client.env_unreachable in
  let Download :=
    Ndt7Client.Download Ndt7Client.simple_URL_String Ndt7Client.simple_canonical in
  Ndt7Client.dial_outcome Ndt7Client.simple_URL_String Ndt7Client.simple_canonical
    handle Ndt7Client.localhost "/ndt/v7/download" Ndt7Client.empty_net
    = inr "dial tcp: connection refused" /\
  result_of handle (Download Ndt7Client.localhost) Ndt7Client.empty_net
    = Some "dial tcp: connection refused" /\
  filter Ndt7Client.is_stage
    (trace_of handle (Download Ndt7Client.localhost) Ndt7Client.empty_net) = [].
Proof.
  split; [reflexivity|].
  destruct (dial_failure_is_returned_and_nothing_runs
              Ndt7Client.simple_URL_String Ndt7Client.simple_canonical
              Ndt7Client.Net (Ndt7Client.net_handle Ndt7Client.env_unreachable)
              Ndt7Client.localhost Ndt7Client.empty_net
              "dial tcp: connection refused"
              (Ndt7Client.Download Ndt7Client.simple_URL_String
                 Ndt7Client.simple_canonical)
              "/ndt/v7/download"
              (or_introl eq_refl) eq_refl) as (Hres & _ & Hstage & _).
  split; [exact Hres | exact Hstage].
Defined.

(** C5, for a dial that succeeds on an empty network. *)
Lemma dialed_connection_has_read_limit_witness :
  let handle := Ndt7Client.net_handle Ndt7Client.env_ok in
  let dial := Ndt7Client.dial Ndt7Client.simple_URL_String Ndt7Client.simple_canonical in
  result_of handle (dial Ndt7Client.localhost "/ndt/v7/download") Ndt7Client.empty_net
    = inl 0%nat /\
  exists cs,
    Ndt7Client.conn_state
      (world_of handle (dial Ndt7Client.localhost "/ndt/v7/download")
         Ndt7Client.empty_net) 0%nat = Some cs /\
    Ndt7Client.readLimit cs = Some 131072.
Proof.
  split; [reflexivity|].
  destruct (dialed_connection_has_read_limit
              Ndt7Client.simple_URL_String Ndt7Client.simple_canonical
              Ndt7Client.env_ok Ndt7Client.localhost "/ndt/v7/download"
              Ndt7Client.empty_net 0%nat eq_refl) as (_ & _ & cs & Hcs & Hlim & _).
  exists cs. split; [exact Hcs | exact Hlim].
Defined.

(** ** cmd/ndt7-client *)

Section CmdProperties.

Import Cmd.

Variable Measurement : Type.
Variable World : Type.
Variable handle : forall o : op Measurement, World -> Resp Measurement o * World.

Local Abbreviation runSubtest := (Cmd.runSubtest Measurement).
Local Abbreviation download := (Cmd.download Measurement).
Local Abbreviation upload := (Cmd.upload Measurement).
Local Abbreviation realmain := (Cmd.realmain Measurement).

Local Abbreviation settled := (code_kept_or_2 Measurement handle).

Lemma settled_lift (A : Type)
    (p : prog (op Measurement) (Resp Measurement) (result A)) :
  settled (lift Measurement p).
Proof.
  intros code w. left. unfold lift. rewrite result_of_bind. reflexivity.
Qed.

Lemma settled_unit (A : Type) (a : A) : settled (unit_body Measurement a).
Proof. intros code w. left. reflexivity. Qed.

Lemma settled_set_2 : settled (set_code Measurement 2).
Proof. intros code w. right. reflexivity. Qed.

Lemma settled_bind (A B : Type) (m : body Measurement A)
    (f : A -> body Measurement B) :
  settled m -> (forall a, settled (f a)) -> settled (bind_body Measurement m f).
Proof.
  intros Hm Hf code w. unfold bind_body. rewrite result_of_bind.
  specialize (Hm code w).
  destruct (result_of handle (m code) w) as [[a | v] code'] eqn:E; cbn [snd] in Hm.
  - destruct (Hf a code' (world_of handle (m code) w)) as [H | H];
      [rewrite H; exact Hm | right; exact H].
  - exact Hm.
Qed.

Lemma settled_for_range (f : Measurement -> body Measurement unit)
    (ch : list Measurement) :
  (forall ev, settled (f ev)) -> settled (for_range Measurement ch f).
Proof.
  intros Hf. induction ch as [|ev ch IH]; cbn [for_range].
  - apply settled_unit.
  - apply settled_bind; [apply Hf | intros _; exact IH].
Qed.

(** The code of a subtest is 0, 1 or 2. *)
Lemma runSubtest_code (client : Client) (emitter : emitter) (subtest : string)
    (start : prog (op Measurement) (Resp Measurement)
                  (result (list Measurement * option error)))
    (emitEvent : Measurement ->
                 prog (op Measurement) (Resp Measurement) (result unit))
    (w : World) :
  In (result_of handle (runSubtest client emitter subtest start emitEvent) w)
     [0; 1; 2].
Proof.
  unfold Cmd.runSubtest. rewrite result_of_bind.
  match goal with
  | |- context [bind_body Measurement (set_code Measurement 0) ?f 0] =>
    change (bind_body Measurement (set_code Measurement 0) f 0) with (f tt 0);
    assert (Hs : settled (f tt))
  end.
  { apply settled_bind; [apply settled_lift|]. intros _.
    apply settled_bind; [apply settled_lift|]. intros [ch [e|]].
    - apply settled_bind; [apply settled_lift | intros _; apply settled_set_2].
    - apply settled_bind; [apply settled_lift|]. intros _.
      apply settled_bind; [|intros _; apply settled_lift].
      apply settled_for_range. intros ev. apply settled_lift. }
  specialize (Hs 0 w). cbv beta in Hs.
  match type of Hs with
  | snd ?b = _ \/ _ => destruct b as [[u | [v|]] code]
  end; cbn [snd] in Hs; cbn [result_of run fst]; simpl; intuition.
Qed.

(** A subtest begins by telling the emitter, whatever happens next. *)
Lemma runSubtest_starts (client : Client) (emitter : emitter) (subtest : string)
    (start : prog (op Measurement) (Resp Measurement)
                  (result (list Measurement * option error)))
    (emitEvent : Measurement ->
                 prog (op Measurement) (Resp Measurement) (result unit))
    (w : World) :
  exists tr,
    trace_of handle (runSubtest client emitter subtest start emitEvent) w =
      onStarting emitter subtest :: tr.
Proof.
  unfold trace_of, Cmd.runSubtest, bind_body, set_code, lift. simpl.
  destruct (handle (onStarting emitter subtest) w) as [r w1].
  match goal with
  | |- context [run handle ?p w1] => destruct (run handle p w1) as [[a w2] t]
  end.
  eexists. reflexivity.
Qed.

(** C8: in every environment, whatever the download does and returns
    (0, or 1 after a recovered panic, or 2 when it could not start),
    realmain goes on to the upload: its calls are those of the download,
    which begin with onStarting for download, followed by those of the
    upload, which begin with onStarting for upload, and it returns the
    sum of the two codes, the code of the download being 0, 1 or 2. *)
Theorem realmain_runs_upload_after_download
    (timeoutSec : Z) (hostname : string) (batchmode : bool) (w : World) :
  let client := main_client timeoutSec hostname in
  let emitter := main_emitter batchmode in
  let w1 := world_of handle (download client emitter) w in
  exists trd tru,
    trace_of handle (download client emitter) w
      = onStarting emitter "download" :: trd /\
    trace_of handle (upload client emitter) w1
      = onStarting emitter "upload" :: tru /\
    trace_of handle (realmain timeoutSec hostname batchmode) w
      = (onStarting emitter "download" :: trd)
          ++ (onStarting emitter "upload" :: tru) ++ [cancel] /\
    result_of handle (realmain timeoutSec hostname batchmode) w
      = result_of handle (download client emitter) w
        + result_of handle (upload client emitter) w1 /\
    In (result_of handle (download client emitter) w) [0; 1; 2].
Proof.
  intros client emitter w1.
  destruct (runSubtest_starts client emitter "download"
              (call (StartDownload client))
              (fun m => call (onDownloadEvent Measurement emitter m)) w)
    as (trd & Hd).
  destruct (runSubtest_starts client emitter "upload"
              (call (StartUpload client))
              (fun m => call (onUploadEvent Measurement emitter m)) w1)
    as (tru & Hu).
  exists trd, tru.
  split; [exact Hd|]. split; [exact Hu|].
  assert (Hmain : realmain timeoutSec hostname batchmode =
                  bind (download client emitter) (fun d =>
                  bind (upload client emitter) (fun u =>
                  bind (call cancel) (fun _ => Ret (d + u))))).
  { unfold Cmd.realmain, client, emitter, main_client, main_emitter, NewClient.
    destruct batchmode; reflexivity. }
  rewrite Hmain. split; [|split].
  - rewrite trace_of_bind, trace_of_bind.
    fold w1. unfold Cmd.download at 1, Cmd.upload at 1.
    fold download upload.
    change (trace_of handle (Cmd.download Measurement client emitter) w)
      with (trace_of handle
              (runSubtest client emitter "download" (call (StartDownload client))
                 (fun m => call (onDownloadEvent Measurement emitter m))) w).
    rewrite Hd.
    change (trace_of handle (Cmd.upload Measurement client emitter) w1)
      with (trace_of handle
              (runSubtest client emitter "upload" (call (StartUpload client))
                 (fun m => call (onUploadEvent Measurement emitter m))) w1).
    rewrite Hu.
    unfold trace_of at 1. simpl.
    destruct (handle cancel _) as [[] w3]. reflexivity.
  - rewrite result_of_bind, result_of_bind. fold w1.
    unfold result_of at 1. simpl.
    destruct (handle cancel _) as [[] w3]. reflexivity.
  - unfold Cmd.download. apply runSubtest_code.
Qed.

End CmdProperties.

(** The download cannot start: its code is 2, and the upload runs. *)
Example realmain_download_cannot_start :
  run (Cmd.script nat Cmd.download_fails) (Cmd.realmain nat 45 "host" true) tt
  = (2, tt,
     [Cmd.onStarting Cmd.batch "download";
      Cmd.StartDownload (Cmd.main_client 45 "host");
      Cmd.onError Cmd.batch "download" "dial tcp: connection refused";
      Cmd.onStarting Cmd.batch "upload";
      Cmd.StartUpload (Cmd.main_client 45 "host");
      Cmd.onConnected Cmd.batch "upload" "host";
      Cmd.onUploadEvent nat Cmd.batch 1%nat;
      Cmd.onUploadEvent nat Cmd.batch 2%nat;
      Cmd.onComplete Cmd.batch "upload";
      Cmd.cancel]).
Proof. reflexivity. Qed.

(** The download panics at its first event: its code is 1, no
    completion is reported for it, and the upload runs. *)
Example realmain_download_panics :
  run (Cmd.script nat Cmd.download_panics) (Cmd.realmain nat 45 "host" false) tt
  = (1, tt,
     [Cmd.onStarting Cmd.interactive "download";
      Cmd.StartDownload (Cmd.main_client 45 "host");
      Cmd.onConnected Cmd.interactive "download" "host";
      Cmd.onDownloadEvent nat Cmd.interactive 1%nat;
      Cmd.onStarting Cmd.interactive "upload";
      Cmd.StartUpload (Cmd.main_client 45 "host");
      Cmd.onConnected Cmd.interactive "upload" "host";
      Cmd.onUploadEvent nat Cmd.interactive 3%nat;
      Cmd.onComplete Cmd.interactive "upload";
      Cmd.cancel]).
Proof. reflexivity. Qed.

(** ** libndt7.js: the message handler of [measure] *)

Section MeasureProperties.

Import Libndt7.

Variable JSON_parse : string -> option JSValue.

Local Abbreviation onmessage := (Libndt7.onmessage JSON_parse).
Local Abbreviation handle_all := (Libndt7.handle_all JSON_parse).
Local Abbreviation measure := (Libndt7.measure JSON_parse).

Lemma paced_weaken (start : Z) (es : list Emission) :
  forall last bytes last' bytes',
    last' <= last -> bytes' <= bytes ->
    paced start last bytes es -> paced start last' bytes' es.
Proof.
  destruct es as [|e es]; simpl; [trivial|].
  intros last bytes last' bytes' Hl Hb (n & Ht & Hn & Hv & Hrest).
  exists n. repeat split; try lia; assumption.
Qed.

(** One call of the handler: the counter does not go down, and it
    emits at most one client measurement, more than 250 ms after the
    previous one. *)
Lemma onmessage_step (st : State) (m : Message) :
  let st' := fst (onmessage st m) in
  let out := client_emissions (snd (onmessage st m)) in
  t0 st' = t0 st /\
  count st <= count st' /\
  ((out = [] /\ tlast st' = tlast st) \/
   (tlast st + 250 < clock m /\ tlast st' = clock m /\
    out = [{| at_time := clock m; key := events_clientMeasurement;
              value := clientMeasurement (count st') (t0 st) (clock m) |}])).
Proof.
  unfold Libndt7.onmessage, report.
  destruct (data m) as [size | s].
  - cbn [count t0 tlast].
    destruct (250 <? clock m - tlast st) eqn:E; cbn [fst snd count t0 tlast].
    + apply Z.ltb_lt in E. repeat split; try lia. right. repeat split; lia.
    + repeat split; try lia. left. split; reflexivity.
  - destruct (JSON_parse s) as [v|]; cbn [fst snd].
    + cbn [count t0 tlast].
      destruct (250 <? clock m - tlast st) eqn:E; cbn [fst snd count t0 tlast].
      * apply Z.ltb_lt in E. repeat split; try lia. right. repeat split; lia.
      * repeat split; try lia. left. split; reflexivity.
    + repeat split; try lia. left. split; reflexivity.
Qed.

Lemma handle_all_paced (msgs : list Message) : forall st,
  paced (t0 st) (tlast st) (count st) (client_emissions (handle_all st msgs)).
Proof.
  induction msgs as [|m msgs IH]; intros st; [exact I|].
  cbn [Libndt7.handle_all].
  pose proof (onmessage_step st m) as H. cbv zeta in H.
  destruct (onmessage st m) as [st' out]. cbn [fst snd] in H.
  destruct H as (Ht0 & Hcount & Hout).
  unfold client_emissions in *. rewrite filter_app.
  specialize (IH st'). rewrite Ht0 in IH.
  destruct Hout as [[Hnil Hlast] | (Hgap & Hlast & Hone)].
  - rewrite Hnil. simpl. rewrite Hlast in IH.
    apply (paced_weaken _ _ (tlast st) (count st') (tlast st) (count st));
      [lia | exact Hcount | exact IH].
  - rewrite Hone. simpl. exists (count st'). cbn [at_time value].
    rewrite Hlast in IH. repeat split; try assumption; lia.
Qed.

(** Everything in a paced sequence comes after [last], with at least
    [bytes] bytes. *)
Lemma paced_Forall (start : Z) (es : list Emission) : forall last bytes,
  paced start last bytes es ->
  Forall (fun e => exists n, last + 250 < at_time e /\ bytes <= n /\
                             value e = clientMeasurement n start (at_time e)) es.
Proof.
  induction es as [|e es IH]; intros last bytes H; [constructor|].
  simpl in H. destruct H as (n & Ht & Hn & Hv & Hrest).
  constructor.
  - exists n. auto.
  - apply IH. apply (paced_weaken start es (at_time e) n); [lia | lia | exact Hrest].
Qed.

Lemma clientMeasurement_measures (n start t : Z) :
  measures (clientMeasurement n start t) ((t - start) # 1000) n.
Proof. split; [reflexivity|]. eexists. split; reflexivity. Qed.

Lemma paced_sorted (start : Z) (es : list Emission) : forall last bytes,
  paced start last bytes es -> StronglySorted not_decreasing es.
Proof.
  induction es as [|e es IH]; intros last bytes H; [constructor|].
  simpl in H. destruct H as (n & Ht & Hn & Hv & Hrest).
  constructor; [exact (IH _ _ Hrest)|].
  apply paced_Forall in Hrest.
  eapply Forall_impl; [|exact Hrest].
  intros e' (n' & Ht' & Hn' & Hv').
  exists ((at_time e - start) # 1000), n, ((at_time e' - start) # 1000), n'.
  rewrite Hv, Hv'.
  split; [apply clientMeasurement_measures|].
  split; [apply clientMeasurement_measures|].
  split; [|exact Hn'].
  unfold Qle. simpl. lia.
Qed.

Lemma filter_and_length (A : Type) (p q : A -> bool) (l : list A) :
  (List.length (filter (fun x => p x && q x) l) <= List.length (filter q l))%nat.
Proof.
  induction l as [|x l IH]; simpl; [lia|].
  destruct (p x), (q x); simpl; lia.
Qed.

(** Up to time [b], a paced sequence holds at most (b - last) / 250
    measurements. *)
Lemma paced_count_until (start : Z) (es : list Emission) : forall last bytes b,
  paced start last bytes es ->
  250 * Z.of_nat (List.length (filter (fun e => at_time e <=? b) es))
    <= Z.max 0 (b - last).
Proof.
  induction es as [|e es IH]; intros last bytes b H; [simpl; lia|].
  simpl in H. destruct H as (n & Ht & Hn & Hv & Hrest).
  specialize (IH (at_time e) n b Hrest).
  cbn [filter]. destruct (at_time e <=? b) eqn:E.
  - apply Z.leb_le in E. cbn [List.length]. rewrite Nat2Z.inj_succ. lia.
  - apply Z.leb_gt in E. lia.
Qed.

(** In a window from [a] to [b], at most (b - a) / 250 + 1. *)
Lemma paced_count_window (start : Z) (es : list Emission) : forall last bytes a b,
  a <= b ->
  paced start last bytes es ->
  250 * Z.of_nat
          (List.length (filter (fun e => (a <=? at_time e) && (at_time e <=? b)) es))
    <= b - a + 250.
Proof.
  induction es as [|e es IH]; intros last bytes a b Hab H; [simpl; lia|].
  simpl in H. destruct H as (n & Ht & Hn & Hv & Hrest).
  cbn [filter]. destruct (a <=? at_time e) eqn:Ea; destruct (at_time e <=? b) eqn:Eb;
    cbn [andb]; try exact (IH (at_time e) n a b Hab Hrest).
  apply Z.leb_le in Ea. apply Z.leb_le in Eb.
  cbn [List.length]. rewrite Nat2Z.inj_succ.
  pose proof (paced_count_until start es (at_time e) n b Hrest) as Hu.
  pose proof (filter_and_length Emission (fun e => a <=? at_time e)
                (fun e => at_time e <=? b) es) as Hle.
  lia.
Qed.

(** C2: the handler emits client measurements more than 250 ms apart,
    the first more than 250 ms after the start; so in any interval of
    length T (by the clock the handler reads) there are at most
    ceil(T / 250) + 1 of them; and from one emission to any later one of
    the same run neither [elapsed] nor [app_info.num_bytes] decreases. *)
Theorem measure_is_throttled_and_monotone
    (start : Z) (msgs : list Message) (a T : Z) :
  0 <= T ->
  let es := measure start msgs in
  Z.of_nat (emitted_within a T es) <= ceil_div T 250 + 1 /\
  paced start start 0 (client_emissions es) /\
  StronglySorted not_decreasing (client_emissions es).
Proof.
  intros HT es.
  assert (Hp : paced start start 0 (client_emissions es)).
  { exact (handle_all_paced msgs {| count := 0; t0 := start; tlast := start |}). }
  split; [|split; [exact Hp | exact (paced_sorted _ _ _ _ Hp)]].
  unfold emitted_within, ceil_div.
  pose proof (paced_count_window start (client_emissions es) start 0 a (a + T)
                ltac:(lia) Hp) as Hw.
  set (k := Z.of_nat (List.length
                        (filter (fun e => (a <=? at_time e) && (at_time e <=? a + T))
                                (client_emissions es)))) in *.
  assert (Hk : 250 * k <= T + 250) by lia.
  clearbody k. clear Hw Hp.
  pose proof (Z.div_mod (- T) 250 ltac:(lia)) as Hdm.
  pose proof (Z.mod_pos_bound (- T) 250 ltac:(lia)) as Hmod.
  lia.
Qed.

(** C6, as the handler has it: every client measurement is an object
    with the two properties [elapsed] and [app_info], in that order,
    [app_info] holding [num_bytes]; it has no property [subtest]. *)
Theorem client_measurement_fields (start : Z) (msgs : list Message) :
  Forall (fun e =>
            keys (value e) = ["elapsed"; "app_info"] /\
            (exists elapsed num_bytes, measures (value e) elapsed num_bytes) /\
            get (value e) "subtest" = None)
         (client_emissions (measure start msgs)).
Proof.
  pose proof (handle_all_paced msgs {| count := 0; t0 := start; tlast := start |}) as Hp.
  apply paced_Forall in Hp.
  eapply Forall_impl; [|exact Hp].
  intros e (n & _ & _ & Hv). rewrite Hv.
  split; [reflexivity|]. split; [|reflexivity].
  eexists. eexists. apply clientMeasurement_measures.
Qed.

End MeasureProperties.

(** C2, on a run started at 1000 with four messages; the window is the
    whole second after the start. *)
Lemma measure_is_throttled_and_monotone_witness :
  let msgs :=
    [{| Libndt7.data := Libndt7.Blob 10; Libndt7.clock := 1100 |};
     {| Libndt7.data := Libndt7.Text "{}"; Libndt7.clock := 1300 |};
     {| Libndt7.data := Libndt7.Blob 5; Libndt7.clock := 1551 |};
     {| Libndt7.data := Libndt7.Blob 5; Libndt7.clock := 1600 |}] in
  let es := Libndt7.measure Libndt7.parse_empty_object 1000 msgs in
  0 <= 1000 /\
  Libndt7.emitted_within 1000 1000 es = 2%nat /\
  Z.of_nat (Libndt7.emitted_within 1000 1000 es) <= Libndt7.ceil_div 1000 250 + 1 /\
  StronglySorted Libndt7.not_decreasing (Libndt7.client_emissions es).
Proof.
  split; [lia|]. split; [reflexivity|].
  destruct (measure_is_throttled_and_monotone Libndt7.parse_empty_object 1000
              [{| Libndt7.data := Libndt7.Blob 10; Libndt7.clock := 1100 |};
               {| Libndt7.data := Libndt7.Text "{}"; Libndt7.clock := 1300 |};
               {| Libndt7.data := Libndt7.Blob 5; Libndt7.clock := 1551 |};
               {| Libndt7.data := Libndt7.Blob 5; Libndt7.clock := 1600 |}]
              1000 1000 ltac:(lia)) as (Hn & _ & Hs).
  split; [exact Hn | exact Hs].
Defined.

(** C6 as written fails: 300 ms after the start a Blob of 10 bytes
    makes the handler emit a client measurement that names no subtest. *)
Lemma client_measurement_names_no_subtest :
  ~ (forall (JSON_parse : string -> option Libndt7.JSValue) (start : Z)
            (msgs : list Libndt7.Message) (e : Libndt7.Emission),
        In e (Libndt7.client_emissions (Libndt7.measure JSON_parse start msgs)) ->
        Libndt7.names_subtest (Libndt7.value e)).
Proof.
  intros H.
  specialize (H Libndt7.parse_empty_object 0
                [{| Libndt7.data := Libndt7.Blob 10; Libndt7.clock := 300 |}]
                {| Libndt7.at_time := 300;
                   Libndt7.key := Libndt7.events_clientMeasurement;
                   Libndt7.value := Libndt7.clientMeasurement 10 0 300 |}
                (or_introl eq_refl)).
  destruct H as [H | H]; discriminate H.
Qed.

(* ====================================================================== *)
(** * Further properties *)
(* ====================================================================== *)

(** ** sink.Writer, on every input *)

Section SinkRuns.

Import Sink.

Variable Conn : Type.
Variable WriteMessage : Conn -> Z -> bytes -> Conn * option error.

Local Abbreviation loop := (Sink.loop WriteMessage).
Local Abbreviation Writer := (Sink.Writer WriteMessage).
Local Abbreviation conn_after := (Sink.conn_after WriteMessage).
Local Abbreviation writes_ok := (Sink.writes_ok WriteMessage).


Lemma loop_outputs (input : list MeasureResult) : forall conn,
  (outputs (snd (loop conn input)) = [] <->
   forallb is_payload input && writes_ok conn input = true) /\
  (forall e, In e (outputs (snd (loop conn input))) ->
     (exists mr, In mr input /\ Err mr = Some e) \/
     (exists d, In (Write TextMessage d (Some e)) (snd (loop conn input)))).
Proof.
  induction input as [|mr input IH]; intros conn.
  - simpl. split; [tauto | intros e []].
  - cbn [Sink.loop Sink.writes_ok forallb]. unfold is_payload at 1.
    destruct (Err mr) as [e0|] eqn:E.
    + cbn [snd]. split.
      * simpl. split; intros H; discriminate H.
      * intros e [He | []]. subst e0. left. exists mr. split; [left; reflexivity | exact E].
    + destruct (WriteMessage conn TextMessage (Measurement mr)) as [conn1 [e0|]].
      * cbn [snd]. split.
        -- simpl. rewrite andb_false_r. split; intros H; discriminate H.
        -- intros e [He | []]. subst e0. right. exists (Measurement mr).
           right. left. reflexivity.
      * destruct (IH conn1) as [Hiff Hprov].
        destruct (loop conn1 input) as [[c r] t]. cbn [snd] in *.
        split.
        -- cbn [outputs flat_map app andb]. exact Hiff.
        -- intros e He. cbn [outputs flat_map app] in He.
           destruct (Hprov e He) as [(m & Hin & Hm) | (d & Hin)].
           ++ left. exists m. split; [right; exact Hin | exact Hm].
           ++ right. exists d. right. right. exact Hin.
Qed.


Lemma outputs_of_run (rest : list MeasureResult) (t : list event) :
  outputs (Debug "sink.Writer: start" :: t
             ++ drain rest ++ [Debug "sink.Writer: stop"] ++ [Close]) = outputs t.
Proof.
  change (Debug "sink.Writer: start" :: t
            ++ drain rest ++ [Debug "sink.Writer: stop"] ++ [Close])
    with ([Debug "sink.Writer: start"] ++ t
            ++ drain rest ++ [Debug "sink.Writer: stop"] ++ [Close]).
  rewrite !outputs_app, outputs_drain. simpl. apply app_nil_r.
Qed.

(** X1: when every envelope is a payload and every write succeeds,
    sink.Writer writes all the payloads, in order, each as one text
    frame, sends nothing on the output channel and closes it: the run
    is a success. *)
Theorem Writer_success (conn : Conn) (input : list MeasureResult) :
  forallb is_payload input = true ->
  writes_ok conn input = true ->
  Writer conn input =
    (conn_after conn input,
     [Debug "sink.Writer: start"] ++ written input
       ++ [Debug "sink.Writer: stop"; Close]) /\
  outputs (snd (Writer conn input)) = [] /\
  writes (snd (Writer conn input))
    = map (fun m => (TextMessage, Measurement m)) input /\
  channel_view (snd (Writer conn input)) = [Close].
Proof.
  intros Hp Hw.
  assert (Hrun : Writer conn input =
    (conn_after conn input,
     [Debug "sink.Writer: start"] ++ written input
       ++ [Debug "sink.Writer: stop"; Close])).
  { unfold Sink.Writer.
    pose proof (loop_written Conn WriteMessage input [] conn Hp Hw) as H.
    rewrite app_nil_r in H. rewrite H. simpl. rewrite app_nil_r. reflexivity. }
  rewrite Hrun. cbn [snd]. split; [reflexivity|].
  split; [|split].
  - rewrite !outputs_app, outputs_written. reflexivity.
  - rewrite !writes_app, writes_written. simpl. apply app_nil_r.
  - rewrite !channel_view_app.
    assert (Hv : forall l, channel_view (written l) = []).
    { induction l as [|m l IHl]; simpl; auto. }
    rewrite Hv. reflexivity.
Qed.


(** X3: sink.Writer reports no error exactly when every envelope is a
    payload and every write succeeds; an error it reports is the error
    of an input envelope or the error a write on the connection
    returned. *)
Theorem Writer_error_provenance (conn : Conn) (input : list MeasureResult) :
  (outputs (snd (Writer conn input)) = [] <->
   forallb is_payload input && writes_ok conn input = true) /\
  (forall e, In e (outputs (snd (Writer conn input))) ->
     (exists mr, In mr input /\ Err mr = Some e) \/
     (exists d, In (Write TextMessage d (Some e)) (snd (Writer conn input)))).
Proof.
  destruct (loop_outputs input conn) as [Hiff Hprov].
  unfold Sink.Writer. destruct (loop conn input) as [[c r] t].
  cbn [snd] in *. rewrite outputs_of_run. split; [exact Hiff|].
  intros e He. destruct (Hprov e He) as [H | (d & Hin)]; [left; exact H|].
  right. exists d. right. apply in_or_app. left. exact Hin.
Qed.

(** X4: payloads that are written without failure do not change what
    happens to the rest of the input: the run on [pre ++ rest] is the
    writes of [pre] followed by the run on [rest] from the connection as
    [pre] left it. *)
Theorem Writer_after_written_prefix
    (conn : Conn) (pre rest : list MeasureResult) :
  forallb is_payload pre = true ->
  writes_ok conn pre = true ->
  fst (Writer conn (pre ++ rest)) = fst (Writer (conn_after conn pre) rest) /\
  snd (Writer conn (pre ++ rest))
    = [Debug "sink.Writer: start"] ++ written pre
        ++ tl (snd (Writer (conn_after conn pre) rest)).
Proof.
  intros Hp Hw. unfold Sink.Writer.
  rewrite (loop_written Conn WriteMessage pre rest conn Hp Hw).
  destruct (loop (conn_after conn pre) rest) as [[c r] t].
  cbn [fst snd tl]. split; [reflexivity|].
  simpl. rewrite <- app_assoc. reflexivity.
Qed.

End SinkRuns.

(** ** Download and Upload after a dial that succeeds *)

Section ClientRuns.

Import Ndt7Client ClientRuns.

Variable URL_String : URL -> string.
Variable CanonicalMIMEHeaderKey : string -> string.
Variable World : Type.
Variable handle : forall o : op, World -> Resp o * World.

Local Abbreviation Download := (Ndt7Client.Download URL_String CanonicalMIMEHeaderKey).
Local Abbreviation Upload := (Ndt7Client.Upload URL_String CanonicalMIMEHeaderKey).
Local Abbreviation dial_call := (Ndt7Client.dial_call URL_String CanonicalMIMEHeaderKey).
Local Abbreviation dial_log := (Ndt7Client.dial_log URL_String).
Local Abbreviation dial_outcome :=
  (Ndt7Client.dial_outcome URL_String CanonicalMIMEHeaderKey handle).
Local Abbreviation subtests := (Ndt7Client.subtests URL_String CanonicalMIMEHeaderKey).



End ClientRuns.

Section ClientResults.

Import Ndt7Client ClientRuns.

Variable URL_String : URL -> string.
Variable CanonicalMIMEHeaderKey : string -> string.
Variable env : Env.

Local Abbreviation Download := (Ndt7Client.Download URL_String CanonicalMIMEHeaderKey).
Local Abbreviation Upload := (Ndt7Client.Upload URL_String CanonicalMIMEHeaderKey).

Lemma nth_error_before_last (cs : list ConnState) (c : ConnState) (i : nat) :
  (i < List.length cs)%nat -> nth_error (cs ++ [c]) i = nth_error cs i.
Proof. intros Hi. apply nth_error_app1. exact Hi. Qed.

Lemma update_update_last (cs : list ConnState) (c : ConnState)
    (f g : ConnState -> ConnState) :
  update (update (cs ++ [c]) (List.length cs) f) (List.length cs) g
    = cs ++ [g (f c)].
Proof.
  induction cs as [|c0 cs IH]; simpl; [reflexivity | rewrite IH; reflexivity].
Qed.

(** The network after a subtest whose dial succeeded: one connection
    more, with its read limit set and closed. *)
Lemma world_after_subtest (cl : Client) (n : Net)
    (method : Client -> prog op Resp (option error)) (urlpath : string) :
  In (method, urlpath) (subtests URL_String CanonicalMIMEHeaderKey) ->
  dial_error env (URL_String (dial_URL cl urlpath)) = None ->
  conns (world_of (net_handle env) (method cl) n)
    = conns n ++ [{| readLimit := Some 131072; closed := true;
                     inbound := peer_frames env |}] /\
  result_of (net_handle env) (method cl) n
    = (if String.eqb urlpath "/ndt/v7/download"
       then counterflow_result env else writer_result env).
Proof.
  intros Hin Hok.
  destruct Hin as [Heq | [Heq | []]]; inversion Heq; subst; clear Heq.
  - unfold world_of, result_of, Ndt7Client.Download, Ndt7Client.dial.
    unfold dial_URL in Hok. cbn in Hok |- *. rewrite Hok. cbn.
    destruct (close_result env); cbn; rewrite update_update_last;
      split; reflexivity.
  - unfold world_of, result_of, Ndt7Client.Upload, Ndt7Client.dial.
    unfold dial_URL in Hok. cbn in Hok |- *. rewrite Hok. cbn.
    destruct (close_result env); cbn; rewrite update_update_last;
      split; reflexivity.
Qed.

(** X6: on a network where the dial succeeds, Download returns what
    the counterflow stage returned and Upload what it received from the
    writer, whether or not closing the connection fails; afterwards the
    connection of the subtest has its read limit of 128 KiB and is
    closed, and the connections that existed before are as they were. *)
Theorem subtest_returns_stage_result (cl : Client) (n : Net) :
  dial_error env (URL_String (dial_URL cl "/ndt/v7/download")) = None ->
  dial_error env (URL_String (dial_URL cl "/ndt/v7/upload")) = None ->
  result_of (net_handle env) (Download cl) n = counterflow_result env /\
  result_of (net_handle env) (Upload cl) n = writer_result env /\
  forall (method : Client -> prog op Resp (option error)) (urlpath : string),
    In (method, urlpath) (subtests URL_String CanonicalMIMEHeaderKey) ->
    let n' := world_of (net_handle env) (method cl) n in
    conn_state n' (List.length (conns n))
      = Some {| readLimit := Some 131072; closed := true;
                inbound := peer_frames env |} /\
    forall i, (i < List.length (conns n))%nat -> conn_state n' i = conn_state n i.
Proof.
  intros Hd Hu.
  split; [|split].
  - apply (world_after_subtest cl n Download "/ndt/v7/download");
      [left; reflexivity | exact Hd].
  - apply (world_after_subtest cl n Upload "/ndt/v7/upload");
      [right; left; reflexivity | exact Hu].
  - intros method urlpath Hin n'. subst n'.
    assert (Hok : dial_error env (URL_String (dial_URL cl urlpath)) = None).
    { destruct Hin as [Heq | [Heq | []]]; inversion Heq; subst; assumption. }
    destruct (world_after_subtest cl n method urlpath Hin Hok) as [Hc _].
    unfold conn_state. rewrite Hc. split.
    + apply nth_error_last.
    + intros i Hi. apply nth_error_before_last. exact Hi.
Qed.

End ClientResults.

(** ** runSubtest and realmain, call by call *)

Section CmdRunsProperties.

Import Cmd CmdRuns.

Variable Measurement : Type.
Variable World : Type.
Variable handle : forall o : op Measurement, World -> Resp Measurement o * World.

Local Abbreviation runSubtest := (Cmd.runSubtest Measurement).
Local Abbreviation download := (Cmd.download Measurement).
Local Abbreviation upload := (Cmd.upload Measurement).
Local Abbreviation realmain := (Cmd.realmain Measurement).
Local Abbreviation lift := (Cmd.lift Measurement).
Local Abbreviation for_range := (Cmd.for_range Measurement).
Local Abbreviation bind_body := (Cmd.bind_body Measurement).

Lemma run_lift (A : Type)
    (p : prog (op Measurement) (Resp Measurement) (result A)) (code : Z) (w : World) :
  run handle (lift p code) w
    = ((result_of handle p w, code), world_of handle p w, trace_of handle p w).
Proof.
  unfold Cmd.lift. rewrite run_bind. simpl. rewrite app_nil_r. reflexivity.
Qed.

Lemma result_of_lift (A : Type)
    (p : prog (op Measurement) (Resp Measurement) (result A)) (code : Z) (w : World) :
  result_of handle (lift p code) w = (result_of handle p w, code).
Proof. unfold result_of at 1. rewrite run_lift. reflexivity. Qed.

Lemma world_of_lift (A : Type)
    (p : prog (op Measurement) (Resp Measurement) (result A)) (code : Z) (w : World) :
  world_of handle (lift p code) w = world_of handle p w.
Proof. unfold world_of at 1. rewrite run_lift. reflexivity. Qed.

Lemma trace_of_lift (A : Type)
    (p : prog (op Measurement) (Resp Measurement) (result A)) (code : Z) (w : World) :
  trace_of handle (lift p code) w = trace_of handle p w.
Proof. unfold trace_of at 1. rewrite run_lift. reflexivity. Qed.

Lemma run_bind_body (A B : Type) (m : body Measurement A)
    (f : A -> body Measurement B) (code : Z) (w : World) :
  run handle (bind_body m f code) w =
    match result_of handle (m code) w with
    | (Normal a, code') =>
      (result_of handle (f a code') (world_of handle (m code) w),
       world_of handle (f a code') (world_of handle (m code) w),
       trace_of handle (m code) w
         ++ trace_of handle (f a code') (world_of handle (m code) w))
    | (Panic v, code') =>
      ((Panic v, code'), world_of handle (m code) w, trace_of handle (m code) w)
    end.
Proof.
  unfold Cmd.bind_body. rewrite run_bind.
  destruct (result_of handle (m code) w) as [[a | v] code'].
  - unfold result_of, world_of, trace_of.
    destruct (run handle (f a code') (snd (fst (run handle (m code) w))))
      as [[x w2] t2]. reflexivity.
  - simpl. rewrite app_nil_r. reflexivity.
Qed.

Lemma result_of_bind_body (A B : Type) (m : body Measurement A)
    (f : A -> body Measurement B) (code : Z) (w : World) :
  result_of handle (bind_body m f code) w =
    match result_of handle (m code) w with
    | (Normal a, code') => result_of handle (f a code') (world_of handle (m code) w)
    | (Panic v, code') => (Panic v, code')
    end.
Proof.
  unfold result_of at 1. rewrite run_bind_body.
  destruct (result_of handle (m code) w) as [[a | v] code']; reflexivity.
Qed.

Lemma world_of_bind_body (A B : Type) (m : body Measurement A)
    (f : A -> body Measurement B) (code : Z) (w : World) :
  world_of handle (bind_body m f code) w =
    match result_of handle (m code) w with
    | (Normal a, code') => world_of handle (f a code') (world_of handle (m code) w)
    | (Panic v, code') => world_of handle (m code) w
    end.
Proof.
  unfold world_of at 1. rewrite run_bind_body.
  destruct (result_of handle (m code) w) as [[a | v] code']; reflexivity.
Qed.

Lemma trace_of_bind_body (A B : Type) (m : body Measurement A)
    (f : A -> body Measurement B) (code : Z) (w : World) :
  trace_of handle (bind_body m f code) w =
    match result_of handle (m code) w with
    | (Normal a, code') =>
      trace_of handle (m code) w
        ++ trace_of handle (f a code') (world_of handle (m code) w)
    | (Panic v, code') => trace_of handle (m code) w
    end.
Proof.
  unfold trace_of at 1. rewrite run_bind_body.
  destruct (result_of handle (m code) w) as [[a | v] code']; reflexivity.
Qed.


Lemma run_call (o : op Measurement) (w : World) :
  run handle (Prog.call o) w = (fst (handle o w), snd (handle o w), [o]).
Proof. simpl. destruct (handle o w) as [r w1]. reflexivity. Qed.

Lemma result_of_call (o : op Measurement) (w : World) :
  result_of handle (Prog.call o) w = fst (handle o w).
Proof. unfold result_of. rewrite run_call. reflexivity. Qed.

Lemma world_of_call (o : op Measurement) (w : World) :
  world_of handle (Prog.call o) w = snd (handle o w).
Proof. unfold world_of. rewrite run_call. reflexivity. Qed.

Lemma trace_of_call (o : op Measurement) (w : World) :
  trace_of handle (Prog.call o) w = [o].
Proof. unfold trace_of. rewrite run_call. reflexivity. Qed.

(** A call of the emitter that returns. *)
Ltac answered o w H :=
  replace (@result_of _ _ _ handle (result unit) (Prog.call o) w)
    with (@Normal unit tt)
    by (symmetry; transitivity (fst (handle o w));
        [exact (result_of_call o w) | exact H]);
  replace (@world_of _ _ _ handle (result unit) (Prog.call o) w)
    with (snd (handle o w)) by (symmetry; exact (world_of_call o w));
  replace (@trace_of _ _ _ handle (result unit) (Prog.call o) w)
    with [o] by (symmetry; exact (trace_of_call o w)).

(** The body of runSubtest, without its first assignment. *)
Lemma runSubtest_unfold (client : Client) (em : emitter) (subtest : string)
    (start : prog (op Measurement) (Resp Measurement)
                  (result (list Measurement * option error)))
    (emitEvent : Measurement ->
                 prog (op Measurement) (Resp Measurement) (result unit)) :
  runSubtest client em subtest start emitEvent =
    bind (bind_body (lift (call (onStarting em subtest))) (fun _ =>
          bind_body (lift start) (fun '(ch, err) =>
          match err with
          | Some e =>
            bind_body (lift (call (onError em subtest e))) (fun _ =>
            set_code Measurement 2)
          | None =>
            bind_body (lift (call (onConnected em subtest (FQDN client)))) (fun _ =>
            bind_body (for_range ch (fun ev => lift (emitEvent ev))) (fun _ =>
            lift (call (onComplete em subtest))))
          end)) 0)
         (fun x => match x with
                   | (Panic (Some _), _) => Ret 1
                   | (_, code) => Ret code
                   end).
Proof. reflexivity. Qed.


Lemma realmain_unfold (timeoutSec : Z) (hostname : string) (batchmode : bool) :
  realmain timeoutSec hostname batchmode =
    bind (download (main_client timeoutSec hostname) (main_emitter batchmode)) (fun d =>
    bind (upload (main_client timeoutSec hostname) (main_emitter batchmode)) (fun u =>
    bind (call cancel) (fun _ => Ret (d + u)))).
Proof.
  unfold Cmd.realmain, main_client, main_emitter, NewClient.
  destruct batchmode; reflexivity.
Qed.

Lemma run_realmain (timeoutSec : Z) (hostname : string) (batchmode : bool) (w : World) :
  let client := main_client timeoutSec hostname in
  let em := main_emitter batchmode in
  let w1 := world_of handle (download client em) w in
  result_of handle (realmain timeoutSec hostname batchmode) w
    = result_of handle (download client em) w
      + result_of handle (upload client em) w1 /\
  trace_of handle (realmain timeoutSec hostname batchmode) w
    = trace_of handle (download client em) w
        ++ trace_of handle (upload client em) w1 ++ [cancel].
Proof.
  intros client em w1. rewrite realmain_unfold. fold client em. split.
  - rewrite !result_of_bind. reflexivity.
  - rewrite !trace_of_bind. fold w1. f_equal. f_equal.
    unfold trace_of. simpl.
    match goal with
    | |- context [handle cancel ?x] => destruct (handle cancel x) as [[] w3]
    end. reflexivity.
Qed.


(** X10: in every environment the exit code realmain returns is
    between 0 and 4, and it is 0 exactly when both subtests returned
    0. *)
Theorem realmain_exit_code
    (timeoutSec : Z) (hostname : string) (batchmode : bool) (w : World) :
  let client := main_client timeoutSec hostname in
  let em := main_emitter batchmode in
  let rv := result_of handle (realmain timeoutSec hostname batchmode) w in
  0 <= rv <= 4 /\
  (rv = 0 <->
   result_of handle (download client em) w = 0 /\
   result_of handle (upload client em) (world_of handle (download client em) w) = 0).
Proof.
  intros client em rv. subst rv.
  destruct (run_realmain timeoutSec hostname batchmode w) as [Hres _].
  fold client em in Hres. rewrite Hres.
  pose proof (runSubtest_code Measurement World handle client em "download"
                (call (StartDownload client))
                (fun m => call (onDownloadEvent Measurement em m)) w) as Hd.
  pose proof (runSubtest_code Measurement World handle client em "upload"
                (call (StartUpload client))
                (fun m => call (onUploadEvent Measurement em m))
                (world_of handle (download client em) w)) as Hu.
  fold (download client em) in Hd. fold (upload client em) in Hu.
  simpl in Hd, Hu. lia.
Qed.

Local Abbreviation keeps m :=
  (forall (code : Z) (w : World), snd (result_of handle (m code) w) = code).

Lemma keeps_lift (A : Type)
    (p : prog (op Measurement) (Resp Measurement) (result A)) : keeps (lift p).
Proof. intros code w. rewrite result_of_lift. reflexivity. Qed.

Lemma keeps_bind (A B : Type) (m : body Measurement A)
    (f : A -> body Measurement B) :
  keeps m -> (forall a, keeps (f a)) -> keeps (bind_body m f).
Proof.
  intros Hm Hf code w. rewrite result_of_bind_body.
  specialize (Hm code w).
  destruct (result_of handle (m code) w) as [[a | v] code']; cbn [snd] in Hm;
    subst code'; [apply Hf | reflexivity].
Qed.

Lemma keeps_for_range (f : Measurement -> body Measurement unit)
    (ch : list Measurement) :
  (forall ev, keeps (f ev)) -> keeps (for_range ch f).
Proof.
  intros Hf. induction ch as [|ev ch IH]; cbn [Cmd.for_range].
  - intros code w. reflexivity.
  - apply keeps_bind; [apply Hf | intros _; exact IH].
Qed.

Ltac wrong_code H :=
  exfalso;
  repeat match type of H with
         | context [match ?v with Some _ => _ | None => _ end] => destruct v
         end;
  cbn in H; discriminate H.

(** X8: in every environment, a subtest returns 2 only when its
    start function returned an error and that error was reported to the
    emitter: the calls are then the start of the subtest, those of the
    start function and onError, and nothing else; no connection and no
    completion is reported. *)
Theorem runSubtest_code_2_means_start_failed
    (client : Client) (em : emitter) (subtest : string)
    (start : prog (op Measurement) (Resp Measurement)
                  (result (list Measurement * option error)))
    (emitEvent : Measurement ->
                 prog (op Measurement) (Resp Measurement) (result unit))
    (w : World) :
  result_of handle (runSubtest client em subtest start emitEvent) w = 2 ->
  let w1 := snd (handle (onStarting em subtest) w) in
  exists ch e,
    result_of handle start w1 = Normal (ch, Some e) /\
    trace_of handle (runSubtest client em subtest start emitEvent) w
      = onStarting em subtest :: trace_of handle start w1
          ++ [onError em subtest e].
Proof.
  intros H w1.
  rewrite runSubtest_unfold in H |- *.
  rewrite result_of_bind in H. rewrite trace_of_bind.
  rewrite result_of_bind_body, world_of_bind_body in H.
  rewrite result_of_bind_body, world_of_bind_body, trace_of_bind_body.
  rewrite !result_of_lift, !world_of_lift in H.
  rewrite !result_of_lift, !world_of_lift, !trace_of_lift.
  replace (@world_of _ _ _ handle (result unit)
             (Prog.call (@onStarting Measurement em subtest)) w)
    with w1 in H |- * by (symmetry; exact (world_of_call (onStarting em subtest) w)).
  replace (@trace_of _ _ _ handle (result unit)
             (Prog.call (@onStarting Measurement em subtest)) w)
    with [@onStarting Measurement em subtest]
    by (symmetry; exact (trace_of_call (onStarting em subtest) w)).
  destruct (@result_of _ _ _ handle (result unit)
              (Prog.call (@onStarting Measurement em subtest)) w) as [[] | v].
  2: { wrong_code H. }
  rewrite result_of_bind_body, world_of_bind_body in H.
  rewrite result_of_bind_body, world_of_bind_body, trace_of_bind_body.
  rewrite !result_of_lift, !world_of_lift in H.
  rewrite !result_of_lift, !world_of_lift, !trace_of_lift.
  destruct (result_of handle start w1) as [[ch [e|]] | v].
  3: { wrong_code H. }
  2: { exfalso.
       match type of H with
       | context [result_of handle (?m 0) ?x] =>
         assert (Hk : keeps m);
           [|specialize (Hk 0 x);
             destruct (result_of handle (m 0) x) as [[u | [v|]] code];
             cbn in Hk; subst code; cbn in H; discriminate H]
       end.
       apply keeps_bind; [apply keeps_lift|]. intros _.
       apply keeps_bind; [|intros _; apply keeps_lift].
       apply keeps_for_range. intros ev. apply keeps_lift. }
  exists ch, e. split; [reflexivity|].
  rewrite result_of_bind_body, world_of_bind_body in H.
  rewrite result_of_bind_body, world_of_bind_body, trace_of_bind_body.
  rewrite !result_of_lift, !world_of_lift in H.
  rewrite !result_of_lift, !world_of_lift, !trace_of_lift.
  set (w2 := world_of handle start w1) in *.
  replace (@trace_of _ _ _ handle (result unit)
             (Prog.call (@onError Measurement em subtest e)) w2)
    with [@onError Measurement em subtest e]
    by (symmetry; exact (trace_of_call (onError em subtest e) w2)).
  destruct (@result_of _ _ _ handle (result unit)
              (Prog.call (@onError Measurement em subtest e)) w2) as [[] | v].
  2: { wrong_code H. }
  cbn. rewrite !app_nil_r. reflexivity.
Qed.

(** The loop over the channel, when the callback panics at [m]. *)
Lemma run_for_range_panics
    (emitEvent : Measurement ->
                 prog (op Measurement) (Resp Measurement) (result unit))
    (oe : Measurement -> op Measurement)
    (pre : list Measurement) (m : Measurement) (post : list Measurement)
    (v : option string) :
  (forall m' w, In m' pre ->
     result_of handle (emitEvent m') w = Normal tt /\
     trace_of handle (emitEvent m') w = [oe m']) ->
  (forall w, result_of handle (emitEvent m) w = Panic v /\
             trace_of handle (emitEvent m) w = [oe m]) ->
  forall code w,
    result_of handle
      (for_range (pre ++ m :: post) (fun ev => lift (emitEvent ev)) code) w
      = (Panic v, code) /\
    trace_of handle
      (for_range (pre ++ m :: post) (fun ev => lift (emitEvent ev)) code) w
      = map oe pre ++ [oe m].
Proof.
  intros Hpre Hm. induction pre as [|ev pre IH]; intros code w.
  - cbn [app Cmd.for_range map].
    rewrite result_of_bind_body, trace_of_bind_body.
    rewrite result_of_lift, trace_of_lift.
    destruct (Hm w) as [Hr Ht]. rewrite Hr, Ht. split; reflexivity.
  - cbn [app Cmd.for_range map].
    rewrite result_of_bind_body, trace_of_bind_body.
    rewrite result_of_lift, world_of_lift, trace_of_lift.
    destruct (Hpre ev w (or_introl eq_refl)) as [Hr Ht]. rewrite Hr, Ht.
    destruct (IH (fun m' w' Hin => Hpre m' w' (or_intror Hin))
                 code (world_of handle (emitEvent ev) w)) as [IHr IHt].
    rewrite IHr, IHt. split; reflexivity.
Qed.

(** X9: a panic of the callback on one measurement ends the subtest
    there: the measurements before it were reported, the ones after it
    are never taken from the channel, no completion is reported, and the
    subtest returns 1. *)
Theorem runSubtest_panic_stops_subtest
    (client : Client) (em : emitter) (subtest : string)
    (start : prog (op Measurement) (Resp Measurement)
                  (result (list Measurement * option error)))
    (emitEvent : Measurement ->
                 prog (op Measurement) (Resp Measurement) (result unit))
    (so : op Measurement) (oe : Measurement -> op Measurement)
    (pre : list Measurement) (m : Measurement) (post : list Measurement)
    (v : string) (w : World) :
  (forall w', fst (handle (onStarting em subtest) w') = Normal tt) ->
  (forall w', fst (handle (onConnected em subtest (FQDN client)) w') = Normal tt) ->
  (forall w', result_of handle start w' = Normal (pre ++ m :: post, None) /\
              trace_of handle start w' = [so]) ->
  (forall m' w', In m' pre ->
     result_of handle (emitEvent m') w' = Normal tt /\
     trace_of handle (emitEvent m') w' = [oe m']) ->
  (forall w', result_of handle (emitEvent m) w' = Panic (Some v) /\
              trace_of handle (emitEvent m) w' = [oe m]) ->
  result_of handle (runSubtest client em subtest start emitEvent) w = 1 /\
  trace_of handle (runSubtest client em subtest start emitEvent) w
    = onStarting em subtest :: so :: onConnected em subtest (FQDN client)
        :: map oe pre ++ [oe m].
Proof.
  intros H1 H3 Hstart Hpre Hm.
  rewrite runSubtest_unfold, result_of_bind, trace_of_bind.
  rewrite !result_of_bind_body, !world_of_bind_body, !trace_of_bind_body.
  rewrite !result_of_lift, !world_of_lift, !trace_of_lift.
  answered (@onStarting Measurement em subtest) w (H1 w).
  set (w1 := snd (handle (onStarting em subtest) w)).
  rewrite !result_of_bind_body, !world_of_bind_body, !trace_of_bind_body.
  rewrite !result_of_lift, !world_of_lift, !trace_of_lift.
  destruct (Hstart w1) as [Hr Ht]. rewrite !Hr, !Ht.
  set (w2 := world_of handle start w1).
  rewrite !result_of_bind_body, !world_of_bind_body, !trace_of_bind_body.
  rewrite !result_of_lift, !world_of_lift, !trace_of_lift.
  answered (@onConnected Measurement em subtest (FQDN client)) w2 (H3 w2).
  set (w3 := snd (handle (onConnected em subtest (FQDN client)) w2)).
  rewrite !result_of_bind_body, !world_of_bind_body, !trace_of_bind_body.
  destruct (run_for_range_panics emitEvent oe pre m post (Some v) Hpre Hm 0 w3)
    as [Hfr Hft].
  rewrite !Hfr, !Hft. cbn. rewrite app_nil_r. split; reflexivity.
Qed.

Local Abbreviation within P m :=
  (forall (code : Z) (w : World), Forall P (trace_of handle (m code) w)).







(** X12: the timeout realmain gives the context is the flag times one
    second in int64 arithmetic: exact for a flag of up to 9223372036
    seconds either way, and wrapped around to a negative duration for
    the next 9223372037 values above. *)
Theorem realmain_timeout (timeoutSec : Z) (hostname : string) (batchmode : bool) :
  exists client,
    realmain timeoutSec hostname batchmode =
      bind (download client (main_emitter batchmode)) (fun d =>
      bind (upload client (main_emitter batchmode)) (fun u =>
      bind (call cancel) (fun _ => Ret (d + u)))) /\
    FQDN client = hostname /\
    (- 9223372036 <= timeoutSec <= 9223372036 ->
     timeout (ctx client) = timeoutSec * 1000000000) /\
    (9223372036 < timeoutSec <= 18446744073 ->
     timeout (ctx client) = timeoutSec * 1000000000 - 2 ^ 64 /\
     timeout (ctx client) < 0).
Proof.
  exists (main_client timeoutSec hostname).
  split; [apply realmain_unfold|]. split; [reflexivity|].
  unfold main_client, wrap64, Second. cbn [ctx timeout].
  split; intros H.
  - rewrite Z.mod_small by lia. lia.
  - assert (E : (timeoutSec * 1000000000 + 2 ^ 63) mod 2 ^ 64
                = timeoutSec * 1000000000 + 2 ^ 63 - 2 ^ 64).
    { symmetry. apply (Z.mod_unique _ _ 1); lia. }
    rewrite E. lia.
Qed.

End CmdRunsProperties.

(** ** libndt7.js: what the handler reports, message by message *)

Section MeasureRuns.

Import Libndt7 Libndt7Client.

Variable JSON_parse : string -> option JSValue.

Local Abbreviation onmessage := (Libndt7.onmessage JSON_parse).
Local Abbreviation handle_all := (Libndt7.handle_all JSON_parse).
Local Abbreviation measure := (Libndt7.measure JSON_parse).
Local Abbreviation state_after := (Libndt7Client.state_after JSON_parse).
Local Abbreviation handled := (Libndt7Client.handled JSON_parse).
Local Abbreviation bytes_of := (Libndt7Client.bytes_of JSON_parse).
Local Abbreviation total_bytes := (Libndt7Client.total_bytes JSON_parse).
Local Abbreviation server_emission := (Libndt7Client.server_emission JSON_parse).

(** One call of the handler, spelled out. *)
Lemma onmessage_cases (st : State) (m : Message) :
  onmessage st m =
    if handled m
    then if tlast st + 250 <? clock m
         then ({| count := count st + bytes_of m; t0 := t0 st; tlast := clock m |},
               server_emission m
                 ++ [{| at_time := clock m; key := events_clientMeasurement;
                        value := clientMeasurement (count st + bytes_of m)
                                                   (t0 st) (clock m) |}])
         else ({| count := count st + bytes_of m; t0 := t0 st; tlast := tlast st |},
               server_emission m)
    else (st, []).
Proof.
  assert (E : (250 <? clock m - tlast st) = (tlast st + 250 <? clock m)).
  { destruct (250 <? clock m - tlast st) eqn:A;
      destruct (tlast st + 250 <? clock m) eqn:B; try reflexivity;
      [apply Z.ltb_lt in A; apply Z.ltb_ge in B | apply Z.ltb_ge in A; apply Z.ltb_lt in B];
      lia. }
  unfold Libndt7.onmessage, Libndt7Client.handled, Libndt7Client.bytes_of,
    Libndt7Client.server_emission, report.
  destruct (data m) as [size | s].
  - cbn [count t0 tlast]. rewrite E.
    destruct (tlast st + 250 <? clock m); reflexivity.
  - destruct (JSON_parse s) as [v|]; [|reflexivity].
    cbn [count t0 tlast]. rewrite E.
    destruct (tlast st + 250 <? clock m); reflexivity.
Qed.

Lemma handle_all_app (a b : list Message) : forall st,
  handle_all st (a ++ b) = handle_all st a ++ handle_all (state_after st a) b.
Proof.
  induction a as [|m a IH]; intros st; [reflexivity|].
  cbn [app Libndt7.handle_all Libndt7Client.state_after].
  destruct (onmessage st m) as [st' out]. cbn [fst].
  rewrite IH, app_assoc. reflexivity.
Qed.

Lemma state_after_app (a b : list Message) : forall st,
  state_after st (a ++ b) = state_after (state_after st a) b.
Proof. induction a as [|m a IH]; intros st; [reflexivity | apply IH]. Qed.

Lemma client_emissions_app (a b : list Emission) :
  client_emissions (a ++ b) = client_emissions a ++ client_emissions b.
Proof. apply filter_app. Qed.

Lemma client_emissions_server (m : Message) :
  client_emissions (server_emission m) = [].
Proof.
  unfold Libndt7Client.server_emission.
  destruct (data m) as [size | s]; [reflexivity|].
  destruct (JSON_parse s); reflexivity.
Qed.

Lemma last_cons (l : list Z) : forall a d, last (a :: l) d = last l a.
Proof.
  induction l as [|b l IH]; intros a d; [reflexivity|].
  change (last (a :: b :: l) d) with (last (b :: l) d).
  rewrite (IH b d), (IH b a). reflexivity.
Qed.

(** The variables after a run, read off the input and the output. *)
Lemma state_after_spec (msgs : list Message) : forall st,
  t0 (state_after st msgs) = t0 st /\
  count (state_after st msgs) = count st + total_bytes msgs /\
  tlast (state_after st msgs)
    = last (map at_time (client_emissions (handle_all st msgs))) (tlast st).
Proof.
  induction msgs as [|m msgs IH]; intros st.
  - cbn. split; [reflexivity|]. split; [lia | reflexivity].
  - cbn [Libndt7Client.state_after Libndt7.handle_all Libndt7Client.total_bytes
           fold_right].
    fold (total_bytes msgs).
    rewrite onmessage_cases.
    destruct (handled m) eqn:Hh.
    + destruct (tlast st + 250 <? clock m) eqn:Ht; cbn [fst snd].
      * destruct (IH {| count := count st + bytes_of m; t0 := t0 st;
                        tlast := clock m |}) as (H0 & Hc & Hl).
        cbn [count t0 tlast] in *.
        split; [exact H0|]. split; [lia|].
        rewrite Hl, !client_emissions_app, client_emissions_server.
        cbn [app client_emissions filter].
        change (is_client {| at_time := clock m; key := events_clientMeasurement;
                             value := clientMeasurement (count st + bytes_of m)
                                                        (t0 st) (clock m) |})
          with true.
        cbn [map at_time app]. rewrite last_cons. reflexivity.
      * destruct (IH {| count := count st + bytes_of m; t0 := t0 st;
                        tlast := tlast st |}) as (H0 & Hc & Hl).
        cbn [count t0 tlast] in *.
        split; [exact H0|]. split; [lia|].
        rewrite Hl, !client_emissions_app, client_emissions_server.
        reflexivity.
    + cbn [fst snd app].
      destruct (IH st) as (H0 & Hc & Hl).
      split; [exact H0|]. split; [|exact Hl].
      assert (Hb : bytes_of m = 0).
      { unfold Libndt7Client.handled in Hh. unfold Libndt7Client.bytes_of.
        destruct (data m) as [size | s]; [discriminate|].
        destruct (JSON_parse s); [discriminate | reflexivity]. }
      lia.
Qed.

Lemma total_bytes_app (a b : list Message) :
  total_bytes (a ++ b) = total_bytes a + total_bytes b.
Proof.
  induction a as [|m a IH]; cbn; [reflexivity|].
  fold (total_bytes (a ++ b)) (total_bytes a). rewrite IH. lia.
Qed.

(** X13: what one more message adds to the client measurements of a
    run: nothing if JSON.parse rejects it or if it comes 250 ms or less
    after the last client measurement (after the start, if there was
    none); otherwise one measurement, whose [elapsed] is the time of
    that message since the start and whose [num_bytes] is the sum of the
    sizes of all messages accepted so far, that one included. *)
Theorem measure_one_more_message (start : Z) (pre : list Message) (m : Message) :
  client_emissions (measure start (pre ++ [m])) =
    client_emissions (measure start pre)
      ++ (if handled m && (last_emission start (measure start pre) + 250 <? clock m)
          then [{| at_time := clock m; key := events_clientMeasurement;
                   value := clientMeasurement (total_bytes (pre ++ [m]))
                                              start (clock m) |}]
          else []).
Proof.
  unfold Libndt7.measure, last_emission.
  set (init := {| count := 0; t0 := start; tlast := start |}).
  rewrite handle_all_app, client_emissions_app. f_equal.
  destruct (state_after_spec pre init) as (H0 & Hc & Hl).
  cbn [count t0 tlast init] in H0, Hc, Hl. fold init in H0, Hc, Hl.
  cbn [Libndt7.handle_all]. rewrite onmessage_cases.
  rewrite Hl, H0, Hc, total_bytes_app.
  cbn [Libndt7Client.total_bytes fold_right]. rewrite Z.add_0_r.
  destruct (handled m); cbn [andb]; [|reflexivity].
  destruct (_ + 250 <? clock m); cbn [snd]; rewrite app_nil_r.
  - rewrite client_emissions_app, client_emissions_server. rewrite Z.add_0_l.
    reflexivity.
  - apply client_emissions_server.
Qed.

(** X14: the server measurements of a run are the text messages that
    JSON.parse accepts, parsed, one emission each, in the order of
    arrival; a Blob and a text that does not parse give none. *)
Theorem measure_server_measurements (start : Z) (msgs : list Message) :
  filter (fun e => negb (is_client e)) (measure start msgs)
    = flat_map server_emission msgs.
Proof.
  unfold Libndt7.measure.
  generalize {| count := 0; t0 := start; tlast := start |}.
  induction msgs as [|m msgs IH]; intros st; [reflexivity|].
  cbn [Libndt7.handle_all flat_map]. rewrite onmessage_cases.
  assert (Hs : filter (fun e => negb (is_client e)) (server_emission m)
               = server_emission m).
  { unfold Libndt7Client.server_emission.
    destruct (data m) as [size | s]; [reflexivity|].
    destruct (JSON_parse s); reflexivity. }
  destruct (handled m) eqn:Hh.
  - destruct (tlast st + 250 <? clock m); cbn [fst snd];
      rewrite !filter_app, Hs, IH; [|reflexivity].
    cbn. rewrite <- app_assoc. reflexivity.
  - cbn [fst snd app]. rewrite IH.
    assert (He : server_emission m = []).
    { unfold Libndt7Client.handled in Hh. unfold Libndt7Client.server_emission.
      destruct (data m) as [size | s]; [reflexivity|].
      destruct (JSON_parse s); [discriminate | reflexivity]. }
    rewrite He. reflexivity.
Qed.

(** X15: a text message that JSON.parse rejects leaves no trace: the
    run is the run without it, its bytes are not counted and the clock
    is not consulted for it. *)
Theorem measure_skips_unparsable_text
    (start : Z) (pre post : list Message) (bad : Message) (s : string) :
  data bad = Text s ->
  JSON_parse s = None ->
  measure start (pre ++ bad :: post) = measure start (pre ++ post).
Proof.
  intros Hd Hp. unfold Libndt7.measure.
  rewrite !handle_all_app. f_equal.
  cbn [Libndt7.handle_all]. unfold Libndt7.onmessage. rewrite Hd, Hp.
  reflexivity.
Qed.

End MeasureRuns.

(** ** libndt7.js: handlers and the socket *)

Section ClientSession.

Import Libndt7 Libndt7Client.

Variable JSON_parse : string -> option JSValue.

Local Abbreviation measure := (Libndt7.measure JSON_parse).
Local Abbreviation handle_all := (Libndt7.handle_all JSON_parse).
Local Abbreviation state_after := (Libndt7Client.state_after JSON_parse).
Local Abbreviation session := (Libndt7Client.session JSON_parse).
Local Abbreviation startDownload := (Libndt7Client.startDownload JSON_parse).

Lemma deliver_calls (funcs : Funcs) (es : list Emission) :
  own funcs "hasOwnProperty" = None ->
  deliver funcs es
    = Some (flat_map (fun e => calls_for funcs (key e) (value e)) es).
Proof.
  intros Hg. induction es as [|e es IH]; [reflexivity|].
  cbn [deliver flat_map]. unfold emit. rewrite Hg, IH. reflexivity.
Qed.

(** The messages at the head of a session. *)
Lemma session_messages (funcs : Funcs) (msgs : list Message) (rest : list Action) :
  own funcs "hasOwnProperty" = None ->
  forall st,
    session funcs st (map (fun m => Socket (Received m)) msgs ++ rest)
      = match session funcs (state_after st msgs) rest with
        | Some cs =>
          Some (flat_map (fun e => calls_for funcs (key e) (value e))
                         (handle_all st msgs) ++ cs)
        | None => None
        end.
Proof.
  intros Hg. induction msgs as [|m msgs IH]; intros st.
  - cbn. destruct (session funcs st rest); reflexivity.
  - cbn [map app Libndt7Client.session socket_handler Libndt7.handle_all
           Libndt7Client.state_after].
    destruct (Libndt7.onmessage JSON_parse st m) as [st' out]. cbn [fst].
    rewrite (deliver_calls funcs out Hg), IH.
    destruct (session funcs (state_after st' msgs) rest) as [cs|]; [|reflexivity].
    rewrite flat_map_app, app_assoc. reflexivity.
Qed.

(** X16: registering a handler and emitting: after [on(key, h)] an
    emit under [key] calls [h], and only [h], with the value emitted,
    whatever was registered under [key] before; an emit under another
    name does what it did before the registration. *)
Theorem emit_after_on (funcs : Funcs) (k : string) (h : Handler)
    (k' : string) (v : JSValue) :
  own funcs "hasOwnProperty" = None ->
  k <> "__proto__" ->
  k <> "hasOwnProperty" ->
  emit (on funcs k h) k' v
    = if String.eqb k k'
      then Some [{| callee := h; argument := v |}]
      else emit funcs k' v.
Proof.
  intros Hg Hp Hk. unfold on.
  apply String.eqb_neq in Hp. rewrite Hp.
  unfold emit, calls_for. cbn [own].
  apply String.eqb_neq in Hk. rewrite Hk, Hg.
  destruct (String.eqb k k'); reflexivity.
Qed.

(** X17: a download from the opening of the socket to its close: the
    handlers are called for the open event with null, then for every
    emission of [measure] over the messages, in order and with the value
    emitted, then for the close event with null; an event under which
    nothing is registered calls nothing. *)
Theorem download_session (funcs : Funcs) (start : Z) (msgs : list Message) :
  own funcs "hasOwnProperty" = None ->
  startDownload funcs start
    (Socket Opened :: map (fun m => Socket (Received m)) msgs ++ [Socket Closed])
  = Some (calls_for funcs events_open JNull
            ++ flat_map (fun e => calls_for funcs (key e) (value e))
                        (measure start msgs)
            ++ calls_for funcs events_close JNull).
Proof.
  intros Hg. unfold Libndt7Client.startDownload.
  cbn [Libndt7Client.session socket_handler]. unfold emit at 1. rewrite Hg.
  rewrite (session_messages funcs msgs [Socket Closed] Hg).
  cbn [Libndt7Client.session socket_handler]. unfold emit. rewrite Hg.
  rewrite app_nil_r. reflexivity.
Qed.

(** X18: a handler registered while the download runs is called for
    what is emitted from then on and for nothing emitted before; the
    registration does not restart the measurement: the byte count and
    the time of the last client measurement carry over. *)
Theorem registration_during_download
    (funcs : Funcs) (start : Z) (before after : list Message)
    (k : string) (h : Handler) :
  own funcs "hasOwnProperty" = None ->
  k <> "hasOwnProperty" ->
  startDownload funcs start
    (map (fun m => Socket (Received m)) before
       ++ On k h :: map (fun m => Socket (Received m)) after)
  = Some (flat_map (fun e => calls_for funcs (key e) (value e))
                   (measure start before)
            ++ flat_map (fun e => calls_for (on funcs k h) (key e) (value e))
                        (skipn (List.length (measure start before))
                               (measure start (before ++ after)))).
Proof.
  intros Hg Hk. unfold Libndt7Client.startDownload.
  rewrite (session_messages funcs before _ Hg).
  cbn [Libndt7Client.session].
  assert (Hg' : own (on funcs k h) "hasOwnProperty" = None).
  { unfold on. destruct (String.eqb k "__proto__"); [exact Hg|].
    cbn [own]. apply String.eqb_neq in Hk. rewrite Hk. exact Hg. }
  pose proof (session_messages (on funcs k h) after [] Hg') as Hs.
  rewrite app_nil_r in Hs. rewrite Hs. cbn [Libndt7Client.session].
  rewrite app_nil_r.
  unfold Libndt7.measure.
  rewrite (handle_all_app JSON_parse before after).
  rewrite skipn_app, skipn_all, Nat.sub_diag. reflexivity.
Qed.

End ClientSession.

(** ** The properties above, on examples *)

(** X1, on two payloads and a connection that works. *)
Lemma Writer_success_witness :
  let input := [Sink.payload []; Sink.payload [Byte.x7b; Byte.x7d]] in
  forallb Sink.is_payload input = true /\
  Sink.writes_ok (Sink.fail_from 5) 0%nat input = true /\
  Sink.outputs (snd (Sink.Writer (Sink.fail_from 5) 0%nat input)) = [] /\
  Sink.writes (snd (Sink.Writer (Sink.fail_from 5) 0%nat input))
    = [(1, []); (1, [Byte.x7b; Byte.x7d])].
Proof.
  split; [reflexivity|]. split; [reflexivity|].
  destruct (Writer_success nat (Sink.fail_from 5) 0%nat
              [Sink.payload []; Sink.payload [Byte.x7b; Byte.x7d]]
              eq_refl eq_refl) as (_ & Ho & Hw & _).
  split; [exact Ho | exact Hw].
Defined.

(** X4, on a payload followed by an error envelope and a payload. *)
Lemma Writer_after_written_prefix_witness :
  let pre := [Sink.payload []] in
  let rest := [Sink.failure "boom"; Sink.payload []] in
  forallb Sink.is_payload pre = true /\
  Sink.writes_ok (Sink.fail_from 5) 0%nat pre = true /\
  snd (Sink.Writer (Sink.fail_from 5) 0%nat (pre ++ rest))
    = [Sink.Debug "sink.Writer: start"] ++ Sink.written pre
        ++ tl (snd (Sink.Writer (Sink.fail_from 5) 1%nat rest)).
Proof.
  split; [reflexivity|]. split; [reflexivity|].
  exact (proj2 (Writer_after_written_prefix nat (Sink.fail_from 5) 0%nat
                  [Sink.payload []] [Sink.failure "boom"; Sink.payload []]
                  eq_refl eq_refl)).
Defined.


(** X6, when the stage fails and closing the connection fails too. *)
Lemma subtest_returns_stage_result_witness :
  let env := ClientRuns.env_with (Some "read: connection reset") (Some "close failed") in
  let handle := Ndt7Client.net_handle env in
  result_of handle
    (Ndt7Client.Download Ndt7Client.simple_URL_String Ndt7Client.simple_canonical
       Ndt7Client.localhost) Ndt7Client.empty_net
    = Some "read: connection reset" /\
  result_of handle
    (Ndt7Client.Upload Ndt7Client.simple_URL_String Ndt7Client.simple_canonical
       Ndt7Client.localhost) Ndt7Client.empty_net
    = Some "read: connection reset".
Proof.
  destruct (subtest_returns_stage_result
              Ndt7Client.simple_URL_String Ndt7Client.simple_canonical
              (ClientRuns.env_with (Some "read: connection reset") (Some "close failed"))
              Ndt7Client.localhost Ndt7Client.empty_net eq_refl eq_refl)
    as (Hd & Hu & _).
  split; [exact Hd | exact Hu].
Defined.



(** X8, on a download whose start function fails. *)
Lemma runSubtest_code_2_means_start_failed_witness :
  let client := Cmd.main_client 45 "host" in
  result_of (Cmd.script nat Cmd.download_fails) (Cmd.download nat client Cmd.batch) tt
    = 2 /\
  trace_of (Cmd.script nat Cmd.download_fails) (Cmd.download nat client Cmd.batch) tt
    = [Cmd.onStarting Cmd.batch "download"; Cmd.StartDownload client;
       Cmd.onError Cmd.batch "download" "dial tcp: connection refused"].
Proof.
  split; [reflexivity|].
  destruct (runSubtest_code_2_means_start_failed nat unit
              (Cmd.script nat Cmd.download_fails)
              (Cmd.main_client 45 "host") Cmd.batch "download"
              (call (Cmd.StartDownload (Cmd.main_client 45 "host")))
              (fun m => call (Cmd.onDownloadEvent nat Cmd.batch m)) tt eq_refl)
    as (ch & e & Hs & Ht).
  injection Hs as _ He. subst e. exact Ht.
Defined.

(** X9, on a download whose event handler panics at the first of two
    measurements. *)
Lemma runSubtest_panic_stops_subtest_witness :
  let client := Cmd.main_client 45 "host" in
  result_of (Cmd.script nat Cmd.download_panics)
    (Cmd.download nat client Cmd.interactive) tt = 1 /\
  trace_of (Cmd.script nat Cmd.download_panics)
    (Cmd.download nat client Cmd.interactive) tt
    = [Cmd.onStarting Cmd.interactive "download"; Cmd.StartDownload client;
       Cmd.onConnected Cmd.interactive "download" "host";
       Cmd.onDownloadEvent nat Cmd.interactive 1%nat].
Proof.
  exact (runSubtest_panic_stops_subtest nat unit
           (Cmd.script nat Cmd.download_panics)
           (Cmd.main_client 45 "host") Cmd.interactive "download"
           (call (Cmd.StartDownload (Cmd.main_client 45 "host")))
           (fun m => call (Cmd.onDownloadEvent nat Cmd.interactive m))
           (Cmd.StartDownload (Cmd.main_client 45 "host"))
           (fun m => Cmd.onDownloadEvent nat Cmd.interactive m)
           [] 1%nat [2%nat] "runtime error: index out of range" tt
           (fun _ => eq_refl) (fun _ => eq_refl)
           (fun _ => conj eq_refl eq_refl)
           (fun m' _ (Hin : In m' []) => match Hin with end)
           (fun _ => conj eq_refl eq_refl)).
Defined.

(** X15, on a text message that is not JSON between two Blobs. *)
Lemma measure_skips_unparsable_text_witness :
  let pre := [{| Libndt7.data := Libndt7.Blob 10; Libndt7.clock := 300 |}] in
  let bad := {| Libndt7.data := Libndt7.Text "oops"; Libndt7.clock := 400 |} in
  let post := [{| Libndt7.data := Libndt7.Blob 5; Libndt7.clock := 700 |}] in
  Libndt7.parse_empty_object "oops" = None /\
  Libndt7.measure Libndt7.parse_empty_object 0 (pre ++ bad :: post)
    = Libndt7.measure Libndt7.parse_empty_object 0 (pre ++ post).
Proof.
  split; [reflexivity|].
  exact (measure_skips_unparsable_text Libndt7.parse_empty_object 0
           [{| Libndt7.data := Libndt7.Blob 10; Libndt7.clock := 300 |}]
           [{| Libndt7.data := Libndt7.Blob 5; Libndt7.clock := 700 |}]
           {| Libndt7.data := Libndt7.Text "oops"; Libndt7.clock := 400 |}
           "oops" eq_refl eq_refl).
Defined.

(** X16, on a handler that replaces another. *)
Lemma emit_after_on_witness :
  let funcs := Libndt7Client.on [] Libndt7.events_clientMeasurement 1%nat in
  Libndt7Client.own funcs "hasOwnProperty" = None /\
  Libndt7Client.emit
    (Libndt7Client.on funcs Libndt7.events_clientMeasurement 2%nat)
    Libndt7.events_clientMeasurement Libndt7.JNull
  = Some [{| Libndt7Client.callee := 2%nat; Libndt7Client.argument := Libndt7.JNull |}].
Proof.
  split; [reflexivity|].
  exact (emit_after_on
           (Libndt7Client.on [] Libndt7.events_clientMeasurement 1%nat)
           Libndt7.events_clientMeasurement 2%nat
           Libndt7.events_clientMeasurement Libndt7.JNull eq_refl
           ltac:(discriminate) ltac:(discriminate)).
Defined.

(** X17, with handlers for the close event and for client
    measurements. *)
Lemma download_session_witness :
  let funcs :=
    Libndt7Client.on
      (Libndt7Client.on [] Libndt7Client.events_close 1%nat)
      Libndt7.events_clientMeasurement 2%nat in
  let msgs := [{| Libndt7.data := Libndt7.Blob 10; Libndt7.clock := 300 |}] in
  Libndt7Client.startDownload Libndt7.parse_empty_object funcs 0
    (Libndt7Client.Socket Libndt7Client.Opened
       :: map (fun m => Libndt7Client.Socket (Libndt7Client.Received m)) msgs
       ++ [Libndt7Client.Socket Libndt7Client.Closed])
  = Some [{| Libndt7Client.callee := 2%nat;
             Libndt7Client.argument := Libndt7.clientMeasurement 10 0 300 |};
          {| Libndt7Client.callee := 1%nat; Libndt7Client.argument := Libndt7.JNull |}].
Proof.
  exact (download_session Libndt7.parse_empty_object
           (Libndt7Client.on
              (Libndt7Client.on [] Libndt7Client.events_close 1%nat)
              Libndt7.events_clientMeasurement 2%nat)
           0 [{| Libndt7.data := Libndt7.Blob 10; Libndt7.clock := 300 |}] eq_refl).
Defined.

(** X18, with a handler registered after the first client
    measurement. *)
Lemma registration_during_download_witness :
  let before := [{| Libndt7.data := Libndt7.Blob 10; Libndt7.clock := 300 |}] in
  let after := [{| Libndt7.data := Libndt7.Blob 5; Libndt7.clock := 600 |}] in
  Libndt7Client.startDownload Libndt7.parse_empty_object [] 0
    (map (fun m => Libndt7Client.Socket (Libndt7Client.Received m)) before
       ++ Libndt7Client.On Libndt7.events_clientMeasurement 7%nat
       :: map (fun m => Libndt7Client.Socket (Libndt7Client.Received m)) after)
  = Some [{| Libndt7Client.callee := 7%nat;
             Libndt7Client.argument := Libndt7.clientMeasurement 15 0 600 |}].
Proof.
  exact (registration_during_download Libndt7.parse_empty_object [] 0
           [{| Libndt7.data := Libndt7.Blob 10; Libndt7.clock := 300 |}]
           [{| Libndt7.data := Libndt7.Blob 5; Libndt7.clock := 600 |}]
           Libndt7.events_clientMeasurement 7%nat eq_refl ltac:(discriminate)).
Defined.

(** ** libndt7.js: the URL of a subtest *)

Section MakeUrl.

Import Libndt7Url.

Variable b : Browser.

Local Abbreviation run := (Prog.run (browser b)).

Lemma lookup_assign_same (o : Object) (k : string) (v : Value) :
  lookup (assign o k v) k = Some v.
Proof.
  induction o as [|[k0 x] o IH]; cbn [assign lookup].
  - rewrite String.eqb_refl. reflexivity.
  - destruct (String.eqb k0 k) eqn:E; cbn [lookup]; rewrite E; [reflexivity | exact IH].
Qed.

Lemma get_assign_same (o : Object) (k : string) (v : Value) :
  get (assign o k v) k = v.
Proof. unfold get. rewrite lookup_assign_same. reflexivity. Qed.



Lemma assign_assign_same (o : Object) (k : string) (v v' : Value) :
  assign (assign o k v) k v' = assign o k v'.
Proof.
  induction o as [|[k0 x] o IH]; cbn [assign].
  - rewrite String.eqb_refl. reflexivity.
  - destruct (String.eqb k0 k) eqn:E; cbn [assign]; rewrite E;
      [reflexivity | rewrite IH; reflexivity].
Qed.

Lemma run_append_only (props : Object) :
  run (append_all props) tt = (tt, tt, appends props).
Proof.
  induction props as [|[key v] props IH]; [reflexivity|].
  cbn [append_all]. rewrite run_bind.
  unfold result_of, world_of, trace_of. cbn [Prog.call Prog.run browser fst snd].
  rewrite IH. reflexivity.
Qed.

Lemma run_append_all (A : Type) (props : Object) (k : unit -> prog op Resp A) :
  run (bind (append_all props) k) tt =
    (fst (fst (run (k tt) tt)), snd (fst (run (k tt) tt)),
     appends props ++ snd (run (k tt) tt)).
Proof.
  rewrite run_bind. unfold result_of, world_of, trace_of.
  rewrite run_append_only. reflexivity.
Qed.

(** What [makeurl] does to [settings]. *)
Lemma settings_fresh_meta (settings : Object) :
  assign_meta
    (assign_meta (assign settings "meta" (VObject []))
       "library.name" (VString "libndt7.js"))
    "library.version" (VNumber version)
  = assign settings "meta"
      (VObject [("library.name", VString "libndt7.js");
                ("library.version", VNumber version)]).
Proof.
  unfold assign_meta. rewrite get_assign_same, assign_assign_same.
  rewrite get_assign_same, assign_assign_same. reflexivity.
Qed.


(** A run of [makeurl], given what it makes of [settings]. *)
Lemma run_makeurl (settings : Object) (subtest : string) :
  href_parses b = true ->
  let settings' :=
    assign_meta
      (assign_meta
         (assign settings "meta"
            (if defined (get settings "meta") then VSelf else VObject []))
         "library.name" (VString "libndt7.js"))
      "library.version" (VNumber version) in
  run (makeurl settings subtest) tt =
    ((Some (href b), settings'), tt,
     [NewURL (get settings "href"); GetProtocol;
      SetProtocol (if String.eqb (protocol b) "https:" then "wss:" else "ws:");
      SetPathname ("/ndt/v7/" ++ subtest)%string]
       ++ appends (meta_properties settings')
       ++ [ParamsToString; SetSearch (search b); URLToString]).
Proof.
  intros Hok settings'. unfold makeurl.
  cbn [bind Prog.call Prog.run browser fst snd]. rewrite Hok.
  cbn [bind Prog.call Prog.run browser fst snd].
  fold settings'. rewrite run_append_all. reflexivity.
Qed.


Lemma run_makeurl_fresh (settings : Object) (subtest : string) :
  href_parses b = true ->
  get settings "meta" = VUndefined ->
  run (makeurl settings subtest) tt =
    ((Some (href b),
      assign settings "meta"
        (VObject [("library.name", VString "libndt7.js");
                  ("library.version", VNumber version)])), tt,
     [NewURL (get settings "href"); GetProtocol;
      SetProtocol (if String.eqb (protocol b) "https:" then "wss:" else "ws:");
      SetPathname ("/ndt/v7/" ++ subtest)%string;
      Append "library.name" (VString "libndt7.js");
      Append "library.version" (VNumber version);
      ParamsToString; SetSearch (search b); URLToString]).
Proof.
  intros Hok Hmeta. rewrite (run_makeurl settings subtest Hok). cbv zeta.
  rewrite Hmeta. cbn [defined]. rewrite settings_fresh_meta.
  unfold meta_properties. rewrite get_assign_same. reflexivity.
Qed.



(** X20: when [settings] has no [meta], [makeurl] sends exactly the
    two parameters library.name = libndt7.js and library.version = 0.7,
    and leaves in [settings.meta] a new object holding those two. *)
Theorem makeurl_without_meta (settings : Object) (subtest : string) :
  href_parses b = true ->
  get settings "meta" = VUndefined ->
  run (makeurl settings subtest) tt =
    ((Some (href b),
      assign settings "meta"
        (VObject [("library.name", VString "libndt7.js");
                  ("library.version", VNumber version)])), tt,
     [NewURL (get settings "href"); GetProtocol;
      SetProtocol (if String.eqb (protocol b) "https:" then "wss:" else "ws:");
      SetPathname ("/ndt/v7/" ++ subtest)%string;
      Append "library.name" (VString "libndt7.js");
      Append "library.version" (VNumber version);
      ParamsToString; SetSearch (search b); URLToString]).
Proof. exact (run_makeurl_fresh settings subtest). Qed.



End MakeUrl.

(** X20, for a page served over https and settings with an address
    only. *)
Lemma makeurl_without_meta_witness :
  let settings := [("href", Libndt7Url.VString "https://example.org/")] in
  Libndt7Url.get settings "meta" = Libndt7Url.VUndefined /\
  snd (run (Libndt7Url.browser Libndt7Url.https_page)
         (Libndt7Url.makeurl settings "download") tt)
  = [Libndt7Url.NewURL (Libndt7Url.VString "https://example.org/");
     Libndt7Url.GetProtocol;
     Libndt7Url.SetProtocol "wss:";
     Libndt7Url.SetPathname "/ndt/v7/download";
     Libndt7Url.Append "library.name" (Libndt7Url.VString "libndt7.js");
     Libndt7Url.Append "library.version" (Libndt7Url.VNumber (7 # 10));
     Libndt7Url.ParamsToString;
     Libndt7Url.SetSearch "library.name=libndt7.js&library.version=0.7";
     Libndt7Url.URLToString].
Proof.
  split; [reflexivity|].
  exact (f_equal snd
           (makeurl_without_meta Libndt7Url.https_page
              [("href", Libndt7Url.VString "https://example.org/")] "download"
              eq_refl eq_refl)).
Defined.


